(** * MyExeServerPy: a Python out-of-process COM server stub

    A shallow embedding of [MyExeServerPy/MyExeServerPy.py] and the
    properties its description states about it.

    The program is glue around two libraries, [comtypes] and [packaging].
    Python objects live on a heap of dictionaries; statements are
    computations in a state-and-exception monad; every call into
    [comtypes] that loads a type library or hands classes to the
    registration entry point is recorded in a trace. *)

From Stdlib Require Import ZArith Ascii String List.
From Stdlib Require Import Floats.PrimFloat.
From stdpp Require Import gmap strings list.

Local Open Scope string_scope.
Local Open Scope list_scope.

(** ** packaging.version

    [packaging.version.parse] turns a version string into a [Version];
    versions are ordered by the key that [packaging] builds from their
    fields.  The local label ([+...]) is left out: it orders only versions
    whose other fields agree, and there a version with no label, such as
    [1.4.9], is the smaller one, so it never makes a version older than
    [1.4.9]. *)
Module packaging.
Module version.

(** The letter of a pre-release segment; Python compares the strings
    ["a"], ["b"] and ["rc"]. *)
Inductive PreLetter := pre_a | pre_b | pre_rc.

Record Version := {
  epoch : nat;
  release : list nat;
  pre : option (PreLetter * nat);
  post : option nat;
  dev : option nat
}.

(** The sentinels [NegativeInfinity] and [Infinity] of the sort key. *)
Inductive Bounded (A : Type) :=
| NegativeInfinity
| Finite (a : A)
| Infinity.
Arguments NegativeInfinity {A}.
Arguments Finite {A} a.
Arguments Infinity {A}.

Definition then_compare (c d : comparison) : comparison :=
  match c with Eq => d | _ => c end.

(** Python's comparison of tuples of integers. *)
Fixpoint tuple_compare (a b : list nat) : comparison :=
  match a, b with
  | [], [] => Eq
  | [], _ :: _ => Lt
  | _ :: _, [] => Gt
  | x :: a', y :: b' => then_compare (Nat.compare x y) (tuple_compare a' b')
  end.

Definition bounded_compare {A} (cmp : A -> A -> comparison)
    (x y : Bounded A) : comparison :=
  match x, y with
  | NegativeInfinity, NegativeInfinity => Eq
  | NegativeInfinity, _ => Lt
  | _, NegativeInfinity => Gt
  | Infinity, Infinity => Eq
  | Infinity, _ => Gt
  | _, Infinity => Lt
  | Finite a, Finite b => cmp a b
  end.

Definition letter_rank (l : PreLetter) : nat :=
  match l with pre_a => 0 | pre_b => 1 | pre_rc => 2 end.

Definition pre_compare (p q : PreLetter * nat) : comparison :=
  then_compare (Nat.compare (letter_rank (fst p)) (letter_rank (fst q)))
               (Nat.compare (snd p) (snd q)).

(** Trailing zeros of the release do not count: [1.4] is [1.4.0]. *)
Fixpoint drop_zeros (l : list nat) : list nat :=
  match l with
  | 0 :: l' => drop_zeros l'
  | _ => l
  end.

Definition strip_trailing_zeros (l : list nat) : list nat :=
  rev (drop_zeros (rev l)).

Definition key_pre (v : Version) : Bounded (PreLetter * nat) :=
  match pre v, post v, dev v with
  | None, None, Some _ => NegativeInfinity
  | None, _, _ => Infinity
  | Some p, _, _ => Finite p
  end.

Definition key_post (v : Version) : Bounded nat :=
  match post v with None => NegativeInfinity | Some n => Finite n end.

Definition key_dev (v : Version) : Bounded nat :=
  match dev v with None => Infinity | Some n => Finite n end.

Definition compare (v w : Version) : comparison :=
  then_compare (Nat.compare (epoch v) (epoch w))
 (then_compare (tuple_compare (strip_trailing_zeros (release v))
                              (strip_trailing_zeros (release w)))
 (then_compare (bounded_compare pre_compare (key_pre v) (key_pre w))
 (then_compare (bounded_compare Nat.compare (key_post v) (key_post w))
               (bounded_compare Nat.compare (key_dev v) (key_dev w))))).

(** [v < w] on versions. *)
Definition ltb (v w : Version) : bool :=
  match compare v w with Lt => true | _ => false end.

(** A final release [n1.n2. ... .nk]. *)
Definition final (r : list nat) : Version :=
  {| epoch := 0; release := r; pre := None; post := None; dev := None |}.

(** [parse("1.4.9")]. *)
Definition parse_1_4_9 : Version := final [1; 4; 9].

End version.
End packaging.

(** ** Python values, objects and the interpreter state *)

(** Heap addresses. *)
Abbreviation addr := nat (only parsing).

(** The functions the program defines with [def]. *)
Inductive FunId :=
| def_ComputePi
| def_GetNumberCruncher
| def_Subscribe
| def_Unsubscribe.

#[warnings="-register-all"]
Inductive Value :=
| VNone
| VInt (z : Z)
| VFloat (x : float)
| VStr (s : string)
| VList (items : list Value)
| VRef (a : addr)                      (* a class, instance or module on the heap *)
| VFunction (f : FunId)                (* a function of the program *)
| VLib (qualname : string)             (* an object of an imported library *)
| VInterface (name : string)           (* an interface class of the type library *)
| VPointer (itf : string) (a : addr).  (* a COM interface pointer to object [a] *)

Inductive Kind :=
| Class (name : string) (base : Value) (mro : list addr)
| Instance (cls : addr)
| Module_ (name : string).

(** An object is its kind and its [__dict__]. *)
Record Object := {
  kind : Kind;
  dict : gmap string Value
}.

(** A call into the COM runtime binding. *)
Inductive Event :=
| Call_GetModule (path : string)
| Call_UseCommandLine (classes : list Value) (argv : list string).

Record State := {
  heap : list Object;            (* objects by address; none is ever freed *)
  globals : gmap string Value;   (* the namespace of module MyExeServerPy *)
  trace : list Event             (* calls into the runtime, oldest first *)
}.

Inductive Exception :=
| ImportError (msg : string)
| ModuleNotFoundError (name : string)   (* a subclass of [ImportError] *)
| OSError (msg : string)
| NameError (name : string)
| AttributeError (name : string)
| TypeError
| COMError (hresult : Z).

(** [isinstance(e, ImportError)]. *)
Definition is_ImportError (e : Exception) : bool :=
  match e with
  | ImportError _ | ModuleNotFoundError _ => true
  | _ => false
  end.

Inductive Result (A : Type) :=
| Ok (a : A)
| Raise (e : Exception).
Arguments Ok {A} a.
Arguments Raise {A} e.

(** A statement or expression: it reads and updates the state and
    either yields a value or raises; the state it reached stays. *)
Definition M (A : Type) : Type := State -> Result A * State.

Definition ret {A} (a : A) : M A := fun st => (Ok a, st).

Definition bind {A B} (c : M A) (k : A -> M B) : M B :=
  fun st =>
    match c st with
    | (Ok a, st') => k a st'
    | (Raise e, st') => (Raise e, st')
    end.

Definition raise {A} (e : Exception) : M A := fun st => (Raise e, st).

Declare Scope py_scope.
Delimit Scope py_scope with py.
Notation "x <- c ;; k" := (bind c (fun x => k))
  (at level 100, c at next level, right associativity) : py_scope.
Notation "c ;;; k" := (bind c (fun _ => k))
  (at level 100, right associativity) : py_scope.
Local Open Scope py_scope.

(** Reading and binding a global name. *)
Definition global (name : string) : M Value :=
  fun st =>
    match globals st !! name with
    | Some v => (Ok v, st)
    | None => (Raise (NameError name), st)
    end.

Definition set_global (name : string) (v : Value) : M unit :=
  fun st =>
    (Ok tt, {| heap := heap st;
               globals := <[name := v]> (globals st);
               trace := trace st |}).

(** A new object gets the next free address. *)
Definition alloc (o : Object) : M addr :=
  fun st =>
    (Ok (length (heap st)),
     {| heap := heap st ++ [o]; globals := globals st; trace := trace st |}).

Definition emit (e : Event) : M unit :=
  fun st =>
    (Ok tt, {| heap := heap st; globals := globals st;
               trace := trace st ++ [e] |}).

(** Attribute lookup along a method resolution order. *)
Fixpoint lookup_mro (h : list Object) (mro : list addr) (name : string)
    : option Value :=
  match mro with
  | [] => None
  | c :: rest =>
      match h !! c with
      | Some o =>
          match dict o !! name with
          | Some v => Some v
          | None => lookup_mro h rest name
          end
      | None => lookup_mro h rest name
      end
  end.

Definition mro_of (h : list Object) (c : addr) : list addr :=
  match h !! c with
  | Some {| kind := Class _ _ mro |} => mro
  | _ => []
  end.

(** [getattr(v, name)] for the objects of this program: an instance
    looks in its own dictionary, then in its class and the bases; a
    class looks along its bases; a module looks in its dictionary. *)
Definition find_attr (h : list Object) (v : Value) (name : string)
    : option Value :=
  match v with
  | VRef a =>
      match h !! a with
      | Some {| kind := Instance c; dict := d |} =>
          match d !! name with
          | Some x => Some x
          | None => lookup_mro h (mro_of h c) name
          end
      | Some {| kind := Class _ _ mro |} => lookup_mro h mro name
      | Some {| kind := Module_ _; dict := d |} => d !! name
      | None => None
      end
  | _ => None
  end.

Definition getattr (v : Value) (name : string) : M Value :=
  fun st =>
    match find_attr (heap st) v name with
    | Some x => (Ok x, st)
    | None => (Raise (AttributeError name), st)
    end.

Definition hasattr (h : list Object) (v : Value) (name : string) : bool :=
  match find_attr h v name with Some _ => true | None => false end.

(** The [class] statement with one base class.  A base that is a class
    of the program or of the generated wrapper module contributes its
    own resolution order; a library base ([comtypes.CoClass]) is opaque:
    it carries none of the attributes looked up here. *)
Definition base_mro (base : Value) : M (list addr) :=
  fun st =>
    match base with
    | VLib _ => (Ok [], st)
    | VRef b =>
        match heap st !! b with
        | Some {| kind := Class _ _ mro |} => (Ok mro, st)
        | _ => (Raise TypeError, st)
        end
    | _ => (Raise TypeError, st)
    end.

Definition class_ (name : string) (base : Value)
    (namespace : gmap string Value) : M Value :=
  above <- base_mro base ;;
  a <- (fun st =>
          alloc {| kind := Class name base (length (heap st) :: above);
                   dict := namespace |} st) ;;
  ret (VRef a).

(** The top-level package [a] of a dotted module name [a.b.c]. *)
Fixpoint top_package (dotted : string) : string :=
  match dotted with
  | EmptyString => EmptyString
  | String c rest =>
      if Ascii.eqb c "."%char then EmptyString
      else String c (top_package rest)
  end.

(** ** The type library

    [MyInterfaces.tlb] is built from an IDL file that is not among the
    sources.  The program reads two names of it: the interface
    [INumberCruncher] (line 18) and the coclass [MyServer] (line 24).
    Whether it declares them, its identifiers and the interfaces of the
    coclass are parameters. *)
Record TypeLib := {
  tl_libid : string;
  tl_INumberCruncher : bool;            (* declares the interface *)
  tl_MyServer : bool;                   (* declares the coclass *)
  tl_MyServer_clsid : string;
  tl_MyServer_interfaces : list string
}.

(** What the program is run in: how it was started; which packages can
    be imported and which comtypes that is; which type library files
    load, by path; and what the registration entry point of comtypes
    comes to for the classes and the command line it gets: it returns
    (after it has registered, unregistered or served them), or it
    raises. *)
Record Env := {
  __name__ : string;                                (* ["__main__"] for a script *)
  argv : list string;                               (* [sys.argv] *)
  installed : string -> bool;                       (* by top-level package *)
  comtypes___version__ : packaging.version.Version; (* as [parse] reads it *)
  typelibs : string -> option TypeLib;
  UseCommandLine_outcome : list Value -> list string -> Result unit
}.

(** [import a.b.c] binds the name of the top-level package [a]; a
    package that is not installed is a [ModuleNotFoundError]. *)
Definition import_ (env : Env) (dotted : string) : M unit :=
  if installed env (top_package dotted)
  then set_global (top_package dotted) (VLib (top_package dotted))
  else raise (ModuleNotFoundError (top_package dotted)).

(** [from m import name]. *)
Definition from_import (env : Env) (module name : string) : M unit :=
  if installed env (top_package module)
  then set_global name (VLib (module ++ "." ++ name))
  else raise (ModuleNotFoundError (top_package module)).

(** ** comtypes *)
Module comtypes.

Definition CLSCTX_INPROC_SERVER : Z := 1.
Definition CLSCTX_LOCAL_SERVER : Z := 4.
Definition E_NOINTERFACE : Z := -2147467262.

Definition CoClass : Value := VLib "comtypes.CoClass".

(** Calling a [CoClass] subclass: [COMObject.__new__] makes the
    instance, with a COM reference count of zero. *)
Definition COMObject_new (cls : Value) : M Value :=
  fun st =>
    match cls with
    | VRef c =>
        match heap st !! c with
        | Some {| kind := Class _ _ _ |} =>
            (a <- alloc {| kind := Instance c;
                           dict := {[ "_refcnt" := VInt 0 ]} |} ;;
             ret (VRef a)) st
        | _ => (Raise TypeError, st)
        end
    | _ => (Raise TypeError, st)
    end.

Definition refcnt (o : Object) : Z :=
  match dict o !! "_refcnt" with
  | Some (VInt n) => n
  | _ => 0
  end.

Definition AddRef (a : addr) : M unit :=
  fun st =>
    match heap st !! a with
    | Some o =>
        (Ok tt,
         {| heap := <[a := {| kind := kind o;
                              dict := <["_refcnt" := VInt (refcnt o + 1)]>
                                        (dict o) |}]> (heap st);
            globals := globals st;
            trace := trace st |})
    | None => (Raise TypeError, st)
    end.

Definition is_interface (name : string) (v : Value) : bool :=
  match v with
  | VInterface n => String.eqb n name
  | _ => false
  end.

Definition implements (interfaces : Value) (name : string) : bool :=
  match interfaces with
  | VList l => existsb (is_interface name) l
  | _ => false
  end.

(** [COMObject.QueryInterface(interface)], as Python code calls it on
    an object: a pointer to the interface if the object's class lists
    it in [_com_interfaces_] (or it is [IUnknown]), with one more
    reference on the object; [E_NOINTERFACE] otherwise. *)
Definition QueryInterface (self interface : Value) : M Value :=
  match self, interface with
  | VRef a, VInterface name =>
      interfaces <- getattr self "_com_interfaces_" ;;
      if implements interfaces name || String.eqb name "IUnknown"
      then AddRef a ;;; ret (VPointer name a)
      else raise (COMError E_NOINTERFACE)
  | _, _ => raise TypeError
  end.

Module client.

(** The wrapper class generated for coclass [MyServer]. *)
Definition MyServer_namespace (path : string) (tl : TypeLib)
    : gmap string Value :=
  {[ "_reg_clsid_" := VStr (tl_MyServer_clsid tl);
     "_idlflags_" := VList [];
     "_typelib_path_" := VStr path;
     "_reg_typelib_" := VStr (tl_libid tl);
     "_com_interfaces_" :=
       VList (map VInterface (tl_MyServer_interfaces tl)) ]}.

(** The interface wrappers of the generated module. *)
Definition interface_wrappers (tl : TypeLib) : list (string * Value) :=
  if tl_INumberCruncher tl
  then [("INumberCruncher", VInterface "INumberCruncher")]
  else [].

(** The coclass wrappers: a class for each coclass declared. *)
Definition coclass_wrappers (path : string) (tl : TypeLib)
    : M (list (string * Value)) :=
  if tl_MyServer tl
  then MyServer <- class_ "MyServer" CoClass (MyServer_namespace path tl) ;;
       ret [("MyServer", MyServer)]
  else ret [].

(** [GetModule(path)]: loads the type library and returns the module
    of generated wrappers, which has the names the library declares;
    fails if the file cannot be loaded. *)
Definition GetModule (env : Env) (path : string) : M Value :=
  emit (Call_GetModule path) ;;;
  match typelibs env path with
  | None => raise (OSError path)
  | Some tl =>
      coclasses <- coclass_wrappers path tl ;;
      m <- alloc {| kind := Module_ "MyInterfaces";
                    dict := list_to_map (interface_wrappers tl ++ coclasses) |} ;;
      ret (VRef m)
  end.

End client.

Module server.

Module localserver.
Definition REGCLS_MULTIPLEUSE : Z := 1.
End localserver.

Module register.
(** [UseCommandLine(classes...)]: the registration entry point.  It
    reads [sys.argv] itself and registers, unregisters or serves the
    classes it is given, and then returns or raises: that is the
    environment's.  The call and what it was given are recorded.  The
    program discards the value it returns. *)
Definition UseCommandLine (env : Env) (classes : list Value) : M unit :=
  emit (Call_UseCommandLine classes (argv env)) ;;;
  (fun st => (UseCommandLine_outcome env classes (argv env), st)).
End register.

End server.

End comtypes.

(** ** The program *)
Module MyExeServerPy.

Import packaging.version.

(** [3.14], the binary64 number Python reads the literal as. *)
#[warnings="-inexact-float"]
Definition pi_literal : float := 3.14%float.

(** *** class NumberCruncher *)

Definition ComputePi (self : Value) : M Value :=
  ret (VFloat pi_literal).

(** *** class MyServerImpl *)

Definition GetNumberCruncher (self : Value) : M Value :=
  NumberCruncher <- global "NumberCruncher" ;;
  obj <- comtypes.COMObject_new NumberCruncher ;;
  MyInterfaces <- global "MyInterfaces" ;;
  INumberCruncher <- getattr MyInterfaces "INumberCruncher" ;;
  comtypes.QueryInterface obj INumberCruncher.

Definition Subscribe (self client : Value) : M Value :=
  ret VNone.

Definition Unsubscribe (self client : Value) : M Value :=
  ret VNone.

(** The parameter lists of the four functions. *)
Definition parameters (f : FunId) : list string :=
  match f with
  | def_ComputePi => ["self"]
  | def_GetNumberCruncher => ["self"]
  | def_Subscribe => ["self"; "client"]
  | def_Unsubscribe => ["self"; "client"]
  end.

(** Calling a function of the program with positional arguments; the
    wrong number of them is a [TypeError]. *)
Definition call (f : FunId) (args : list Value) : M Value :=
  match f, args with
  | def_ComputePi, [self] => ComputePi self
  | def_GetNumberCruncher, [self] => GetNumberCruncher self
  | def_Subscribe, [self; client] => Subscribe self client
  | def_Unsubscribe, [self; client] => Unsubscribe self client
  | _, _ => raise TypeError
  end.

(** [obj.name(args...)]. *)
Definition call_method (obj : Value) (name : string) (args : list Value)
    : M Value :=
  f <- getattr obj name ;;
  match f with
  | VFunction f => call f (obj :: args)
  | _ => raise TypeError
  end.

(** The bodies of the two [class] statements. *)
Definition NumberCruncher_body : M (gmap string Value) :=
  MyInterfaces <- global "MyInterfaces" ;;
  INumberCruncher <- getattr MyInterfaces "INumberCruncher" ;;
  ret {[ "__doc__" := VStr "Non-creatable COM class that doesn't need any CLSID";
         "_com_interfaces_" := VList [INumberCruncher];
         "ComputePi" := VFunction def_ComputePi ]}.

Definition MyServerImpl_body : M (gmap string Value) :=
  ret {[ "_reg_threading_" := VStr "Both";
         "_reg_desc_" := VStr "Python-based COM server for testing";
         "_reg_clsctx_" := VInt comtypes.CLSCTX_LOCAL_SERVER;
         "_regcls_" := VInt comtypes.server.localserver.REGCLS_MULTIPLEUSE;
         "GetNumberCruncher" := VFunction def_GetNumberCruncher;
         "Subscribe" := VFunction def_Subscribe;
         "Unsubscribe" := VFunction def_Unsubscribe ]}.

Definition is_str (v : Value) (s : string) : bool :=
  match v with
  | VStr s' => String.eqb s' s
  | _ => false
  end.

(** The module, top to bottom. *)
Definition module_body (env : Env) : M unit :=
  import_ env "comtypes.client" ;;;
  import_ env "comtypes.server.localserver" ;;;
  from_import env "packaging.version" "parse" ;;;
  (if ltb (comtypes___version__ env) parse_1_4_9
   then raise (ImportError "comtypes 1.4.9 or newer required due to https://github.com/enthought/comtypes/pull/678")
   else ret tt) ;;;
  MyInterfaces <- comtypes.client.GetModule env "../x64/Debug/MyInterfaces.tlb" ;;
  set_global "MyInterfaces" MyInterfaces ;;;
  namespace <- NumberCruncher_body ;;
  NumberCruncher <- class_ "NumberCruncher" comtypes.CoClass namespace ;;
  set_global "NumberCruncher" NumberCruncher ;;;
  MyInterfaces <- global "MyInterfaces" ;;
  MyServer <- getattr MyInterfaces "MyServer" ;;
  namespace <- MyServerImpl_body ;;
  MyServerImpl <- class_ "MyServerImpl" MyServer namespace ;;
  set_global "MyServerImpl" MyServerImpl ;;;
  name <- global "__name__" ;;
  if is_str name "__main__"
  then
    from_import env "comtypes.server.register" "UseCommandLine" ;;;
    MyServerImpl <- global "MyServerImpl" ;;
    comtypes.server.register.UseCommandLine env [MyServerImpl]
  else ret tt.

(** The interpreter as it starts on the module. *)
Definition initial (env : Env) : State :=
  {| heap := [];
     globals := {[ "__name__" := VStr (__name__ env) ]};
     trace := [] |}.

(** Importing or running the module. *)
Definition run (env : Env) : Result unit * State :=
  module_body env (initial env).

(** What clients do to a running server through the program: calls of
    its functions, one after the other; a call that raises leaves the
    state it reached.  (Making the server object and releasing objects
    are the runtime's steps, not the program's; they are not among
    these.) *)
Definition run_calls (calls : list (FunId * list Value)) (st : State)
    : State :=
  fold_left (fun s c => snd (call (fst c) (snd c) s)) calls st.

End MyExeServerPy.

(** ** The states the module can end in *)

Import packaging.version MyExeServerPy.

Definition tlb_path : string := "../x64/Debug/MyInterfaces.tlb".

Definition import_error : Exception :=
  ImportError "comtypes 1.4.9 or newer required due to https://github.com/enthought/comtypes/pull/678".

(** The module namespace once the three import statements have run. *)
Definition imports_globals (name : string) : gmap string Value :=
  <["parse" := VLib "packaging.version.parse"]>
    (<["comtypes" := VLib "comtypes"]> {[ "__name__" := VStr name ]}).

(** Where a run stops when the version guard raises. *)
Definition stopped_state (name : string) : State :=
  {| heap := []; globals := imports_globals name; trace := [] |}.

(** Where it stops when [packaging] cannot be imported. *)
Definition comtypes_imported_state (name : string) : State :=
  {| heap := [];
     globals := <["comtypes" := VLib "comtypes"]> {[ "__name__" := VStr name ]};
     trace := [] |}.

(** The four objects a successful run leaves on the heap, by address:
    the generated coclass, the wrapper module and the two classes of the
    program. *)
Definition MyServer_object (tl : TypeLib) : Object :=
  {| kind := Class "MyServer" comtypes.CoClass [0];
     dict := comtypes.client.MyServer_namespace tlb_path tl |}.

Definition MyInterfaces_object : Object :=
  {| kind := Module_ "MyInterfaces";
     dict := {[ "INumberCruncher" := VInterface "INumberCruncher";
                "MyServer" := VRef 0 ]} |}.

Definition NumberCruncher_object : Object :=
  {| kind := Class "NumberCruncher" comtypes.CoClass [2];
     dict := {[ "__doc__" := VStr "Non-creatable COM class that doesn't need any CLSID";
                "_com_interfaces_" := VList [VInterface "INumberCruncher"];
                "ComputePi" := VFunction def_ComputePi ]} |}.

Definition MyServerImpl_object : Object :=
  {| kind := Class "MyServerImpl" (VRef 0) [3; 0];
     dict := {[ "_reg_threading_" := VStr "Both";
                "_reg_desc_" := VStr "Python-based COM server for testing";
                "_reg_clsctx_" := VInt comtypes.CLSCTX_LOCAL_SERVER;
                "_regcls_" := VInt comtypes.server.localserver.REGCLS_MULTIPLEUSE;
                "GetNumberCruncher" := VFunction def_GetNumberCruncher;
                "Subscribe" := VFunction def_Subscribe;
                "Unsubscribe" := VFunction def_Unsubscribe ]} |}.

Definition loaded_heap (tl : TypeLib) : list Object :=
  [ MyServer_object tl; MyInterfaces_object;
    NumberCruncher_object; MyServerImpl_object ].

Definition classes_globals (name : string) : gmap string Value :=
  <["MyServerImpl" := VRef 3]>
    (<["NumberCruncher" := VRef 2]>
       (<["MyInterfaces" := VRef 1]> (imports_globals name))).

(** Where a run stops when the type library does not load: [GetModule]
    has been called. *)
Definition no_typelib_state (name : string) : State :=
  {| heap := []; globals := imports_globals name;
     trace := [Call_GetModule tlb_path] |}.

(** The wrappers [GetModule] generates, whatever the library declares. *)
Definition wrapper_module (tl : TypeLib) : Object :=
  {| kind := Module_ "MyInterfaces";
     dict := list_to_map
               (comtypes.client.interface_wrappers tl ++
                if tl_MyServer tl then [("MyServer", VRef 0)] else []) |}.

Definition wrapper_heap (tl : TypeLib) : list Object :=
  if tl_MyServer tl
  then [MyServer_object tl; wrapper_module tl]
  else [wrapper_module tl].

(** Where a run stops when the library lacks [INumberCruncher]
    (line 18): the wrapper module is bound, no class is defined. *)
Definition wrapped_state (name : string) (tl : TypeLib) : State :=
  {| heap := wrapper_heap tl;
     globals := <["MyInterfaces" := VRef (length (wrapper_heap tl) - 1)]>
                  (imports_globals name);
     trace := [Call_GetModule tlb_path] |}.

(** Where it stops when the library lacks [MyServer] (line 24):
    [NumberCruncher] is defined, [MyServerImpl] is not. *)
Definition half_loaded_state (name : string) (tl : TypeLib) : State :=
  {| heap := [wrapper_module tl;
              {| kind := Class "NumberCruncher" comtypes.CoClass [1];
                 dict := dict NumberCruncher_object |}];
     globals := <["NumberCruncher" := VRef 1]>
                  (<["MyInterfaces" := VRef 0]> (imports_globals name));
     trace := [Call_GetModule tlb_path] |}.

Definition is_main (env : Env) : bool :=
  String.eqb (__name__ env) "__main__".

(** The state after a successful import ([script = false]) or script
    run ([script = true]). *)
Definition loaded_state (env : Env) (tl : TypeLib) : State :=
  {| heap := loaded_heap tl;
     globals :=
       if is_main env
       then <["UseCommandLine" := VLib "comtypes.server.register.UseCommandLine"]>
              (classes_globals (__name__ env))
       else classes_globals (__name__ env);
     trace :=
       Call_GetModule tlb_path ::
       if is_main env
       then [Call_UseCommandLine [VRef 3] (argv env)]
       else [] |}.

(** What a run of the module comes to, case by case. *)
Definition run_outcome (env : Env) : Result unit * State :=
  if installed env "comtypes" then
    if installed env "packaging" then
      if ltb (comtypes___version__ env) parse_1_4_9
      then (Raise import_error, stopped_state (__name__ env))
      else
        match typelibs env tlb_path with
        | None => (Raise (OSError tlb_path), no_typelib_state (__name__ env))
        | Some tl =>
            if tl_INumberCruncher tl then
              if tl_MyServer tl then
                (if is_main env
                 then UseCommandLine_outcome env [VRef 3] (argv env)
                 else Ok tt,
                 loaded_state env tl)
              else (Raise (AttributeError "MyServer"),
                    half_loaded_state (__name__ env) tl)
            else (Raise (AttributeError "INumberCruncher"),
                  wrapped_state (__name__ env) tl)
        end
    else (Raise (ModuleNotFoundError "packaging"),
          comtypes_imported_state (__name__ env))
  else (Raise (ModuleNotFoundError "comtypes"), initial env).

(** A server that has handed out [extra] objects since it was loaded. *)
Definition serving_state (env : Env) (tl : TypeLib) (extra : list Object)
    : State :=
  {| heap := loaded_heap tl ++ extra;
     globals := globals (loaded_state env tl);
     trace := trace (loaded_state env tl) |}.

(** A [NumberCruncher] instance holding [rc] COM references. *)
Definition cruncher (rc : Z) : Object :=
  {| kind := Instance 2; dict := {[ "_refcnt" := VInt rc ]} |}.

(** ** Vocabulary of the properties *)

(** What a call may do to the state around it: the module namespace
    and the trace stay, every object stays as it is, and objects may be
    added behind them. *)
Definition frame (st st' : State) : Prop :=
  globals st' = globals st /\ trace st' = trace st /\
  exists extra, heap st' = heap st ++ extra.

(** A result with the address of a returned pointer left out. *)
Definition shape (r : Result Value) : Result Value :=
  match r with
  | Ok (VPointer itf _) => Ok (VInterface itf)
  | _ => r
  end.

(** The classes the module defines with a [class] statement. *)
Definition program_class_names : list string :=
  ["NumberCruncher"; "MyServerImpl"].

Definition class_of_name (st : State) (name : string) : option addr :=
  match globals st !! name with
  | Some (VRef c) => Some c
  | _ => None
  end.

Definition program_classes (st : State) : list addr :=
  omap (class_of_name st) program_class_names.

(** The functions a class body defines. *)
Definition as_method (entry : string * Value) : option FunId :=
  match snd entry with
  | VFunction f => Some f
  | _ => None
  end.

Definition own_methods (st : State) (c : addr) : list FunId :=
  match heap st !! c with
  | Some o => omap as_method (map_to_list (dict o))
  | None => []
  end.

Definition program_methods (st : State) : list FunId :=
  flat_map (own_methods st) (program_classes st).


(** A function that, called with as many arguments as it has
    parameters, returns [v] and leaves the state alone. *)
Definition returns_constant (f : FunId) (v : Value) : Prop :=
  forall args st,
    length args = length (parameters f) -> call f args st = (Ok v, st).

Definition is_noop (f : FunId) : Prop := returns_constant f VNone.

Definition returns_hardcoded_constant (f : FunId) : Prop :=
  exists v, v <> VNone /\ returns_constant f v.

(** The attributes [comtypes] reads when it registers a class. *)
Definition registry_attributes : list string :=
  ["_reg_clsid_"; "_reg_progid_"; "_reg_novers_progid_"; "_reg_desc_";
   "_reg_threading_"; "_reg_clsctx_"; "_regcls_"; "_reg_typelib_"].

Definition has_key (o : Object) (name : string) : bool :=
  match dict o !! name with Some _ => true | None => false end.


Definition is_ref (c : addr) (v : Value) : bool :=
  match v with VRef a => Nat.eqb a c | _ => false end.

Definition registers (c : addr) (e : Event) : bool :=
  match e with
  | Call_UseCommandLine classes _ => existsb (is_ref c) classes
  | Call_GetModule _ => false
  end.

Definition passed_to_UseCommandLine (st : State) (c : addr) : bool :=
  existsb (registers c) (trace st).


Definition is_UseCommandLine (e : Event) : bool :=
  match e with Call_UseCommandLine _ _ => true | Call_GetModule _ => false end.

Definition is_instance (o : Object) : bool :=
  match kind o with Instance _ => true | _ => false end.

(** "Exactly two interface methods in total: one that returns a
    hardcoded constant, and the rest are unimplemented no-ops." *)
Definition two_methods (st : State) : Prop :=
  length (program_methods st) = 2 /\
  exists f, In f (program_methods st) /\ returns_hardcoded_constant f /\
    forall g, In g (program_methods st) -> g <> f -> is_noop g.


(** "For every method and every argument, the state is identical
    before and after the call." *)
Definition every_call_leaves_state (st : State) : Prop :=
  forall f args, snd (call f args st) = st.

(** A state with more objects behind the ones it has. *)
Definition with_objects (extra : list Object) (st : State) : State :=
  {| heap := heap st ++ extra; globals := globals st; trace := trace st |}.

(** [except ImportError] would catch what the run raised. *)
Definition raises_ImportError (r : Result unit) : bool :=
  match r with
  | Raise e => is_ImportError e
  | Ok _ => false
  end.

(** "The module raises ImportError if and only if the installed
    comtypes version is older than 1.4.9." *)
Definition ImportError_iff_old_comtypes (env : Env) : Prop :=
  raises_ImportError (fst (run env)) = true
  <-> ltb (comtypes___version__ env) parse_1_4_9 = true.

(** (a, b, c) comes before (1, 4, 9). *)
Definition before_1_4_9 (a b c : nat) : Prop :=
  a < 1 \/ (a = 1 /\ (b < 4 \/ (b = 4 /\ c < 9))).

(** The same environment with the module imported under [name]. *)
Definition imported_as (name : string) (env : Env) : Env :=
  {| __name__ := name; argv := argv env;
     installed := installed env;
     comtypes___version__ := comtypes___version__ env;
     typelibs := typelibs env;
     UseCommandLine_outcome := UseCommandLine_outcome env |}.

(** ** Sample environments *)

Definition sample_typelib : TypeLib :=
  {| tl_libid := "{LIBID-of-MyInterfaces}";
     tl_INumberCruncher := true;
     tl_MyServer := true;
     tl_MyServer_clsid := "{CLSID-of-MyServer}";
     tl_MyServer_interfaces := ["IMyServer"] |}.

Definition sample_typelibs (path : string) : option TypeLib :=
  if String.eqb path tlb_path then Some sample_typelib else None.

(** [python MyExeServerPy.py /regserver] with comtypes 1.4.10 and
    packaging installed; the registration goes through. *)
Definition script_env : Env :=
  {| __name__ := "__main__";
     argv := ["MyExeServerPy.py"; "/regserver"];
     installed := fun _ => true;
     comtypes___version__ := final [1; 4; 10];
     typelibs := sample_typelibs;
     UseCommandLine_outcome := fun _ _ => Ok tt |}.

(** [import MyExeServerPy] with comtypes 1.4.10. *)
Definition import_env : Env := imported_as "MyExeServerPy" script_env.

(** [import MyExeServerPy] with comtypes 1.4.8. *)
Definition old_env : Env :=
  {| __name__ := "MyExeServerPy";
     argv := ["client.py"];
     installed := fun _ => true;
     comtypes___version__ := final [1; 4; 8];
     typelibs := sample_typelibs;
     UseCommandLine_outcome := fun _ _ => Ok tt |}.

(** [import MyExeServerPy] with comtypes 1.4.10 on a machine without
    packaging. *)
Definition no_packaging_env : Env :=
  {| __name__ := "MyExeServerPy";
     argv := ["client.py"];
     installed := fun package => String.eqb package "comtypes";
     comtypes___version__ := final [1; 4; 10];
     typelibs := sample_typelibs;
     UseCommandLine_outcome := fun _ _ => Ok tt |}.

(** ** Vocabulary of further properties *)

(** The module gets through its class statements: comtypes and
    packaging can be imported, the installed comtypes passes the guard,
    and the type library loads and declares the two names read. *)
Definition loads (env : Env) : bool :=
  installed env "comtypes" && installed env "packaging" &&
  negb (ltb (comtypes___version__ env) parse_1_4_9) &&
  match typelibs env tlb_path with
  | Some tl => tl_INumberCruncher tl && tl_MyServer tl
  | None => false
  end.

(** The same environment with another command line, or with other
    type library files. *)
Definition with_argv (av : list string) (env : Env) : Env :=
  {| __name__ := __name__ env; argv := av;
     installed := installed env;
     comtypes___version__ := comtypes___version__ env;
     typelibs := typelibs env;
     UseCommandLine_outcome := UseCommandLine_outcome env |}.

Definition with_typelibs (files : string -> option TypeLib) (env : Env)
    : Env :=
  {| __name__ := __name__ env; argv := argv env;
     installed := installed env;
     comtypes___version__ := comtypes___version__ env;
     typelibs := files;
     UseCommandLine_outcome := UseCommandLine_outcome env |}.

(** An event without the command line it carries. *)
Definition forget_argv (e : Event) : Event :=
  match e with
  | Call_UseCommandLine classes _ => Call_UseCommandLine classes []
  | Call_GetModule path => Call_GetModule path
  end.

(** What the class factory of the running server does when a client
    asks for the class: it calls it. *)
Definition CreateInstance (class_name : string) : M Value :=
  cls <- global class_name ;;
  comtypes.COMObject_new cls.

(** A call through an interface pointer reaches the object behind it. *)
Definition invoke (p : Value) (name : string) (args : list Value)
    : M Value :=
  match p with
  | VPointer _ a => call_method (VRef a) name args
  | _ => raise TypeError
  end.

(** A client's session: get the server, ask it for a number cruncher
    and call [method] on that. *)
Definition ask_cruncher (method : string) (args : list Value) : M Value :=
  server <- CreateInstance "MyServerImpl" ;;
  cruncher <- call_method server "GetNumberCruncher" [] ;;
  invoke cruncher method args.

(** ... or call [method] on the server itself. *)
Definition ask_server (method : string) (args : list Value) : M Value :=
  server <- CreateInstance "MyServerImpl" ;;
  call_method server method args.

(** A machine that has the Release build of the type library only. *)
Definition release_only (path : string) : option TypeLib :=
  if String.eqb path "../x64/Release/MyInterfaces.tlb"
  then Some sample_typelib else None.

(** ** Symbolic execution *)

Lemma bind_ok {A B} (c : M A) (k : A -> M B) st a st' :
  c st = (Ok a, st') -> bind c k st = k a st'.
Proof. intros H. unfold bind. now rewrite H. Qed.

Lemma bind_raise {A B} (c : M A) (k : A -> M B) st e st' :
  c st = (Raise e, st') -> bind c k st = (Raise e, st').
Proof. intros H. unfold bind. now rewrite H. Qed.

Lemma global_ok name v st :
  globals st !! name = Some v -> global name st = (Ok v, st).
Proof. intros H. unfold global. now rewrite H. Qed.

Lemma getattr_ok v name x st :
  find_attr (heap st) v name = Some x -> getattr v name st = (Ok x, st).
Proof. intros H. unfold getattr. now rewrite H. Qed.

(** Evaluates one dictionary lookup whose keys are literals. *)
Ltac gmap_lookup :=
  match goal with
  | |- context [ @lookup ?K ?V (gmap ?K ?V) ?I ?k ?m ] =>
      let x := eval vm_compute in (@lookup K V (gmap K V) I k m) in
      change (@lookup K V (gmap K V) I k m) with x
  end.

Ltac exec_step :=
  first
  [ progress cbn -[String.eqb __name__ argv]
  | gmap_lookup
  | progress unfold global, getattr, find_attr,
      NumberCruncher_body, MyServerImpl_body
  | unfold bind at 1 ].

Lemma run_spec env : run env = run_outcome env.
Proof.
  destruct env as [name av inst ver tls ucl].
  unfold run, run_outcome, module_body, initial, is_main.
  unfold import_, from_import.
  change (top_package "comtypes.client") with "comtypes".
  change (top_package "comtypes.server.localserver") with "comtypes".
  change (top_package "packaging.version") with "packaging".
  change (top_package "comtypes.server.register") with "comtypes".
  cbn [__name__ argv installed comtypes___version__ typelibs
       UseCommandLine_outcome].
  destruct (inst "comtypes"); [ | reflexivity ].
  destruct (inst "packaging"); [ | vm_compute; reflexivity ].
  unfold set_global.
  do 4 (unfold bind at 1; cbn [heap globals trace]).
  destruct (ltb ver parse_1_4_9); [ reflexivity | ].
  unfold ret at 1. unfold comtypes.client.GetModule.
  cbn [typelibs]. fold tlb_path.
  unfold bind at 1, emit at 1. cbn [heap globals trace app].
  unfold bind at 1.
  destruct (tls tlb_path) as [tl|]; [ | reflexivity ].
  destruct tl as [libid hasI hasS clsid itfs].
  unfold comtypes.client.coclass_wrappers, comtypes.client.interface_wrappers.
  cbn [tl_INumberCruncher tl_MyServer].
  destruct hasI, hasS.
  - unfold loaded_state, is_main.
    repeat exec_step.
    cbn [__name__ argv].
    destruct (String.eqb name "__main__"); [ repeat exec_step | ];
      reflexivity.
  - repeat exec_step. reflexivity.
  - repeat exec_step. reflexivity.
  - repeat exec_step. reflexivity.
Qed.

Lemma heap_lookup_last (h : list Object) o : (h ++ [o]) !! length h = Some o.
Proof. apply list_lookup_middle. reflexivity. Qed.

Lemma heap_insert_last (h : list Object) o o' :
  <[length h := o']> (h ++ [o]) = h ++ [o'].
Proof.
  rewrite insert_app_r_alt by lia. now rewrite Nat.sub_diag.
Qed.

Lemma loaded_globals_NumberCruncher env tl :
  globals (loaded_state env tl) !! "NumberCruncher" = Some (VRef 2).
Proof. unfold loaded_state; cbn [globals]. destruct (is_main env); vm_compute; reflexivity. Qed.

Lemma loaded_globals_MyInterfaces env tl :
  globals (loaded_state env tl) !! "MyInterfaces" = Some (VRef 1).
Proof. unfold loaded_state; cbn [globals]. destruct (is_main env); vm_compute; reflexivity. Qed.

Lemma GetNumberCruncher_serving env tl extra self :
  GetNumberCruncher self (serving_state env tl extra)
  = (Ok (VPointer "INumberCruncher" (4 + length extra)),
     serving_state env tl (extra ++ [cruncher 1])).
Proof.
  unfold GetNumberCruncher.
  rewrite (bind_ok _ _ _ (VRef 2) (serving_state env tl extra))
    by (apply global_ok, loaded_globals_NumberCruncher).
  rewrite (bind_ok _ _ _ (VRef (4 + length extra))
             (serving_state env tl (extra ++ [cruncher 0]))).
  2:{ unfold comtypes.COMObject_new, serving_state, loaded_heap. cbn -[loaded_state].
      reflexivity. }
  rewrite (bind_ok _ _ _ (VRef 1) (serving_state env tl (extra ++ [cruncher 0])))
    by (apply global_ok, loaded_globals_MyInterfaces).
  rewrite (bind_ok _ _ _ (VInterface "INumberCruncher")
             (serving_state env tl (extra ++ [cruncher 0])))
    by (apply getattr_ok; reflexivity).
  unfold comtypes.QueryInterface.
  assert (Hlast : heap (serving_state env tl (extra ++ [cruncher 0])) !! (4 + length extra)
                  = Some (cruncher 0)).
  { unfold serving_state; cbn [heap]. rewrite app_assoc.
    replace (4 + length extra) with (length (loaded_heap tl ++ extra))
      by (rewrite length_app; reflexivity).
    apply heap_lookup_last. }
  rewrite (bind_ok _ _ _ (VList [VInterface "INumberCruncher"])
             (serving_state env tl (extra ++ [cruncher 0]))).
  2:{ apply getattr_ok. unfold find_attr. rewrite Hlast. reflexivity. }
  cbn [comtypes.implements existsb comtypes.is_interface].
  change (("INumberCruncher" =? "INumberCruncher")%string) with true.
  cbn [orb].
  rewrite (bind_ok _ _ _ tt (serving_state env tl (extra ++ [cruncher 1]))).
  { reflexivity. }
  unfold comtypes.AddRef. rewrite Hlast.
  unfold serving_state; cbn [heap globals trace].
  rewrite !app_assoc.
  replace (4 + length extra) with (length (loaded_heap tl ++ extra))
    by (rewrite length_app; reflexivity).
  rewrite heap_insert_last. reflexivity.
Qed.

Lemma frame_refl st : frame st st.
Proof. repeat split. exists []. now rewrite app_nil_r. Qed.

Lemma frame_alloc st o :
  frame st {| heap := heap st ++ [o]; globals := globals st; trace := trace st |}.
Proof. repeat split. now exists [o]. Qed.

Lemma GetNumberCruncher_frame self st :
  frame st (snd (GetNumberCruncher self st)).
Proof.
  unfold GetNumberCruncher.
  unfold bind at 1, global at 1.
  destruct (globals st !! "NumberCruncher") as [cls|]; [ | apply frame_refl ].
  unfold bind at 1, comtypes.COMObject_new.
  destruct cls as [ | | | | |c| | | | ]; try apply frame_refl.
  destruct (heap st !! c) as [[[cname cbase cmro| |] cdict]|]; try apply frame_refl.
  cbn [bind alloc ret].
  set (o := {| kind := Instance c; dict := {[ "_refcnt" := VInt 0 ]} |}).
  set (st1 := {| heap := heap st ++ [o]; globals := globals st; trace := trace st |}).
  unfold bind at 1, global at 1.
  destruct (globals st1 !! "MyInterfaces") as [m|]; [ | apply frame_alloc ].
  unfold bind at 1, getattr at 1.
  destruct (find_attr (heap st1) m "INumberCruncher") as [itf|]; [ | apply frame_alloc ].
  unfold comtypes.QueryInterface.
  destruct itf as [ | | | | | | | |name| ]; try apply frame_alloc.
  unfold bind at 1, getattr at 1.
  destruct (find_attr (heap st1) (VRef (length (heap st))) "_com_interfaces_")
    as [itfs|]; [ | apply frame_alloc ].
  destruct (comtypes.implements itfs name || String.eqb name "IUnknown");
    [ | apply frame_alloc ].
  unfold bind, comtypes.AddRef, ret.
  subst st1; cbn [heap globals trace].
  rewrite heap_lookup_last. cbn [snd heap globals trace].
  rewrite heap_insert_last. apply frame_alloc.
Qed.

Lemma call_frame f args st : frame st (snd (call f args st)).
Proof.
  destruct f; destruct args as [|self [|client [|more args]]];
    try apply frame_refl.
  apply GetNumberCruncher_frame.
Qed.

Lemma call_same f args st :
  f = def_GetNumberCruncher \/ snd (call f args st) = st.
Proof.
  destruct f; [ right | left; reflexivity | right | right ];
    destruct args as [|self [|client [|more args]]]; reflexivity.
Qed.

Lemma loaded_state_serving env tl : loaded_state env tl = serving_state env tl [].
Proof. reflexivity. Qed.

Lemma call_serving env tl extra f args :
  exists extra',
    snd (call f args (serving_state env tl extra))
    = serving_state env tl (extra ++ extra') /\
    Forall (eq (cruncher 1)) extra'.
Proof.
  destruct (call_same f args (serving_state env tl extra)) as [-> | Hsame].
  - destruct args as [|self [|more args]].
    + exists []. now rewrite app_nil_r.
    + exists [cruncher 1]. cbn [call].
      rewrite GetNumberCruncher_serving. split; [ reflexivity | ].
      repeat constructor.
    + exists []. now rewrite app_nil_r.
  - exists []. rewrite app_nil_r. split; [ exact Hsame | constructor ].
Qed.

Lemma run_calls_serving env tl calls : forall extra,
  exists extra',
    run_calls calls (serving_state env tl extra)
    = serving_state env tl (extra ++ extra') /\
    Forall (eq (cruncher 1)) extra'.
Proof.
  induction calls as [|[f args] calls IH]; intros extra.
  - exists []. now rewrite app_nil_r.
  - cbn [run_calls fold_left fst snd].
    destruct (call_serving env tl extra f args) as (e1 & -> & H1).
    destruct (IH (extra ++ e1)) as (e2 & H2 & H3).
    exists (e1 ++ e2). unfold run_calls in H2. rewrite H2, app_assoc.
    split; [ reflexivity | now apply Forall_app ].
Qed.

Lemma loaded_inv env st :
  run env = (Ok tt, st) ->
  exists tl, typelibs env tlb_path = Some tl /\
    ltb (comtypes___version__ env) parse_1_4_9 = false /\
    st = loaded_state env tl.
Proof.
  rewrite run_spec. unfold run_outcome.
  destruct (installed env "comtypes"); [ | discriminate ].
  destruct (installed env "packaging"); [ | discriminate ].
  destruct (ltb _ _); [ discriminate | ].
  destruct (typelibs env tlb_path) as [tl|]; [ | discriminate ].
  destruct (tl_INumberCruncher tl); [ | discriminate ].
  destruct (tl_MyServer tl); [ | discriminate ].
  intros [= _ <-]. now exists tl.
Qed.

Lemma loaded_conditions env st :
  run env = (Ok tt, st) ->
  exists tl,
    installed env "comtypes" = true /\
    installed env "packaging" = true /\
    ltb (comtypes___version__ env) parse_1_4_9 = false /\
    typelibs env tlb_path = Some tl /\
    tl_INumberCruncher tl = true /\
    tl_MyServer tl = true /\
    st = loaded_state env tl.
Proof.
  rewrite run_spec. unfold run_outcome.
  destruct (installed env "comtypes"); [ | discriminate ].
  destruct (installed env "packaging"); [ | discriminate ].
  destruct (ltb _ _); [ discriminate | ].
  destruct (typelibs env tlb_path) as [tl|]; [ | discriminate ].
  destruct (tl_INumberCruncher tl) eqn:HI; [ | discriminate ].
  destruct (tl_MyServer tl) eqn:HS; [ | discriminate ].
  intros [= _ <-]. exists tl. now repeat split.
Qed.

Lemma run_loaded env tl :
  installed env "comtypes" = true ->
  installed env "packaging" = true ->
  ltb (comtypes___version__ env) parse_1_4_9 = false ->
  typelibs env tlb_path = Some tl ->
  tl_INumberCruncher tl = true ->
  tl_MyServer tl = true ->
  run env
  = (if is_main env
     then UseCommandLine_outcome env [VRef 3] (argv env)
     else Ok tt,
     loaded_state env tl).
Proof.
  intros Hc Hp Hv Ht HI HS. rewrite run_spec. unfold run_outcome.
  now rewrite Hc, Hp, Hv, Ht, HI, HS.
Qed.

Lemma reachable_inv env st calls :
  run env = (Ok tt, st) ->
  exists tl extra, st = loaded_state env tl /\
    run_calls calls st = serving_state env tl extra /\
    Forall (eq (cruncher 1)) extra.
Proof.
  intros (tl & _ & _ & ->)%loaded_inv.
  destruct (run_calls_serving env tl calls []) as (extra & H & Hall).
  exists tl, extra. now repeat split.
Qed.


(** ** The version order on examples *)

Example older_than_1_4_9 :
  ltb (final [1; 4; 8]) parse_1_4_9 = true /\
  ltb (final [1; 3; 20]) parse_1_4_9 = true /\
  ltb {| epoch := 0; release := [1; 4; 9]; pre := Some (pre_rc, 1);
         post := None; dev := None |} parse_1_4_9 = true /\
  ltb {| epoch := 0; release := [1; 4; 9]; pre := None;
         post := None; dev := Some 0 |} parse_1_4_9 = true.
Proof. repeat split. Qed.

Example not_older_than_1_4_9 :
  ltb (final [1; 4; 9]) parse_1_4_9 = false /\
  ltb (final [1; 4; 9; 0]) parse_1_4_9 = false /\
  ltb (final [1; 4; 10]) parse_1_4_9 = false /\
  ltb (final [2]) parse_1_4_9 = false /\
  ltb {| epoch := 0; release := [1; 4; 9]; pre := None;
         post := Some 1; dev := None |} parse_1_4_9 = false.
Proof. repeat split. Qed.

(** ** The sample runs *)

Lemma script_run :
  run script_env = (Ok tt, loaded_state script_env sample_typelib).
Proof. rewrite run_spec. reflexivity. Defined.

Lemma import_run :
  run import_env = (Ok tt, loaded_state import_env sample_typelib).
Proof. rewrite run_spec. reflexivity. Defined.

(** ** Facts about calls on a loaded server *)

Lemma frame_lookup st st' a o :
  frame st st' -> heap st !! a = Some o -> heap st' !! a = Some o.
Proof.
  intros (_ & _ & extra & ->) H. now apply lookup_app_l_Some.
Qed.

Lemma call_shape_serving env tl extra f args :
  shape (fst (call f args (serving_state env tl extra)))
  = shape (fst (call f args (loaded_state env tl))).
Proof.
  rewrite loaded_state_serving.
  destruct f; destruct args as [|self [|client [|more args]]];
    try reflexivity.
  cbn [call]. now rewrite !GetNumberCruncher_serving.
Qed.

Lemma serving_lookup_fresh env tl extra :
  heap (serving_state env tl extra) !! (4 + length extra) = None.
Proof.
  apply lookup_ge_None_2. unfold serving_state; cbn [heap].
  rewrite length_app. cbn. lia.
Qed.

Lemma serving_lookup_last env tl extra o :
  heap (serving_state env tl (extra ++ [o])) !! (4 + length extra) = Some o.
Proof.
  unfold serving_state; cbn [heap]. rewrite app_assoc.
  replace (4 + length extra) with (length (loaded_heap tl ++ extra))
    by (rewrite length_app; reflexivity).
  apply heap_lookup_last.
Qed.

Lemma serving_class_of_name env tl extra :
  class_of_name (serving_state env tl extra) "NumberCruncher" = Some 2 /\
  class_of_name (serving_state env tl extra) "MyServerImpl" = Some 3.
Proof.
  unfold class_of_name, serving_state, loaded_state; cbn [globals].
  destruct (is_main env); split; vm_compute; reflexivity.
Qed.

Lemma serving_passed env tl extra :
  passed_to_UseCommandLine (serving_state env tl extra) 2 = false /\
  passed_to_UseCommandLine (serving_state env tl extra) 3 = is_main env.
Proof.
  unfold passed_to_UseCommandLine, serving_state, loaded_state; cbn [trace].
  destruct (is_main env); split; reflexivity.
Qed.

Lemma classes_globals_name name :
  <["__name__" := VStr "__main__"]> (classes_globals name)
  = classes_globals "__main__".
Proof.
  unfold classes_globals, imports_globals.
  rewrite (insert_insert_ne _ "__name__" "MyServerImpl") by discriminate.
  rewrite (insert_insert_ne _ "__name__" "NumberCruncher") by discriminate.
  rewrite (insert_insert_ne _ "__name__" "MyInterfaces") by discriminate.
  rewrite (insert_insert_ne _ "__name__" "parse") by discriminate.
  rewrite (insert_insert_ne _ "__name__" "comtypes") by discriminate.
  now rewrite insert_singleton_eq.
Qed.

Lemma is_main_eq env : is_main env = true -> __name__ env = "__main__".
Proof. unfold is_main. apply String.eqb_eq. Qed.

Lemma serving_no_registry_attribute env tl extra :
  existsb (hasattr (heap (serving_state env tl extra)) (VRef 2))
    registry_attributes = false.
Proof. reflexivity. Qed.


Lemma Subscribe_noop : is_noop def_Subscribe.
Proof.
  intros [|self [|client [|more args]]] st Hlen; try discriminate Hlen.
  reflexivity.
Qed.

Lemma Unsubscribe_noop : is_noop def_Unsubscribe.
Proof.
  intros [|self [|client [|more args]]] st Hlen; try discriminate Hlen.
  reflexivity.
Qed.

Lemma ComputePi_constant : returns_constant def_ComputePi (VFloat pi_literal).
Proof.
  intros [|self [|more args]] st Hlen; try discriminate Hlen.
  reflexivity.
Qed.

Lemma ComputePi_hardcoded : returns_hardcoded_constant def_ComputePi.
Proof. exists (VFloat pi_literal). split; [ discriminate | apply ComputePi_constant ]. Qed.

(** On a loaded server [GetNumberCruncher] returns a pointer and leaves
    a new object: it neither does nothing nor returns a constant. *)
Lemma GetNumberCruncher_works :
  ~ is_noop def_GetNumberCruncher /\
  ~ returns_hardcoded_constant def_GetNumberCruncher.
Proof.
  assert (H : forall v, ~ returns_constant def_GetNumberCruncher v).
  { intros v Hconst.
    pose proof (Hconst [VNone] (serving_state import_env sample_typelib [])
                  eq_refl) as H.
    cbn [call] in H. rewrite GetNumberCruncher_serving in H.
    injection H as _ H. discriminate H. }
  split; [ apply H | intros (v & _ & Hv); exact (H v Hv) ].
Qed.

Lemma loaded_program_classes env tl : program_classes (loaded_state env tl) = [2; 3].
Proof.
  unfold program_classes, class_of_name, loaded_state; cbn [globals].
  destruct (is_main env); vm_compute; reflexivity.
Qed.

Lemma loaded_own_methods env tl :
  own_methods (loaded_state env tl) 2 = [def_ComputePi] /\
  own_methods (loaded_state env tl) 3
  = [def_GetNumberCruncher; def_Subscribe; def_Unsubscribe].
Proof. split; vm_compute; reflexivity. Qed.

Lemma loaded_program_methods env tl :
  program_methods (loaded_state env tl)
  = [def_ComputePi; def_GetNumberCruncher; def_Subscribe; def_Unsubscribe].
Proof.
  unfold program_methods. rewrite loaded_program_classes. cbn [flat_map].
  destruct (loaded_own_methods env tl) as [-> ->]. reflexivity.
Qed.



(** A client that holds the pointer [GetNumberCruncher] returned
    reaches [ComputePi] through the object behind it. *)
Lemma ComputePi_on_returned_object env tl extra :
  call_method (VRef (4 + length extra)) "ComputePi" []
    (serving_state env tl (extra ++ [cruncher 1]))
  = (Ok (VFloat pi_literal), serving_state env tl (extra ++ [cruncher 1])).
Proof.
  unfold call_method.
  rewrite (bind_ok _ _ _ (VFunction def_ComputePi)
             (serving_state env tl (extra ++ [cruncher 1]))).
  - reflexivity.
  - apply getattr_ok. unfold find_attr.
    rewrite serving_lookup_last. reflexivity.
Qed.

Lemma release_key a b c :
  ltb (final [a; b; c]) parse_1_4_9
  = match tuple_compare (strip_trailing_zeros [a; b; c]) [1; 4; 9] with
    | Lt => true
    | _ => false
    end.
Proof.
  lazy beta iota delta
    [ltb compare final parse_1_4_9 epoch release pre post dev
     key_pre key_post key_dev bounded_compare Nat.compare then_compare].
  change (strip_trailing_zeros [1; 4; 9]) with [1; 4; 9].
  now destruct (tuple_compare (strip_trailing_zeros [a; b; c]) [1; 4; 9]).
Qed.

Lemma final_release_older a b c :
  ltb (final [a; b; c]) parse_1_4_9 = true <-> before_1_4_9 a b c.
Proof.
  unfold before_1_4_9.
  rewrite release_key. unfold strip_trailing_zeros.
  cbn [rev app].
  destruct c as [|c]; [ destruct b as [|b]; [ destruct a as [|a] | ] | ];
    cbn [drop_zeros rev app tuple_compare].
  - split; [ lia | reflexivity ].
  - destruct a as [|a]; cbn; split; intros; try lia; discriminate.
  - destruct (Nat.compare_spec a 1); cbn [then_compare];
      [ subst a | | ].
    + destruct (Nat.compare_spec (S b) 4); cbn [then_compare];
        split; intros; try discriminate; try lia; reflexivity.
    + split; intros; [ lia | reflexivity ].
    + split; intros; [ discriminate | lia ].
  - destruct (Nat.compare_spec a 1); cbn [then_compare];
      [ subst a | | ].
    + destruct (Nat.compare_spec b 4); cbn [then_compare];
        [ subst b | | ].
      * destruct (Nat.compare_spec (S c) 9); cbn [then_compare];
          split; intros; try discriminate; try lia; reflexivity.
      * split; intros; [ lia | reflexivity ].
      * split; intros; [ discriminate | lia ].
    + split; intros; [ lia | reflexivity ].
    + split; intros; [ discriminate | lia ].
Qed.

Lemma call_GetNumberCruncher_with_objects env tl extra self :
  call def_GetNumberCruncher [self] (with_objects extra (loaded_state env tl))
  = (Ok (VPointer "INumberCruncher"
           (length (heap (loaded_state env tl) ++ extra))),
     with_objects [cruncher 1] (with_objects extra (loaded_state env tl))).
Proof.
  change (with_objects extra (loaded_state env tl))
    with (serving_state env tl extra).
  cbn [call]. rewrite GetNumberCruncher_serving.
  unfold with_objects, serving_state; cbn [heap globals trace].
  rewrite length_app, app_assoc. reflexivity.
Qed.

(** ** The claims *)

(** C1.  [NumberCruncher.ComputePi] has no parameter besides [self] and
    returns the constant 3.14 (the binary64 number nearest to it): at
    every call, in every state and after any calls, and it leaves the
    state as it was.  A call with an argument raises [TypeError]. *)
Theorem ComputePi_returns_constant :
  parameters def_ComputePi = ["self"] /\
  pi_literal = 0x1.91eb851eb851fp+1%float /\
  (forall self st, ComputePi self st = (Ok (VFloat pi_literal), st)) /\
  (forall self calls st,
     fst (call def_ComputePi [self] (run_calls calls st))
     = Ok (VFloat pi_literal)) /\
  (forall self arg more st,
     call def_ComputePi (self :: arg :: more) st = (Raise TypeError, st)).
Proof.
  split; [ reflexivity | ].
  split; [ reflexivity | ].
  split; [ intros self st; reflexivity | ].
  split; [ intros self calls st; reflexivity | ].
  intros self arg more st. reflexivity.
Qed.

(** C2.  For every [client], [MyServerImpl.Subscribe] and
    [MyServerImpl.Unsubscribe] return [None] and do nothing else: the
    state after the call is the state before it. *)
Theorem Subscribe_Unsubscribe_do_nothing :
  forall self client st,
    Subscribe self client st = (Ok VNone, st) /\
    Unsubscribe self client st = (Ok VNone, st) /\
    call def_Subscribe [self; client] st = (Ok VNone, st) /\
    call def_Unsubscribe [self; client] st = (Ok VNone, st).
Proof.
  intros self client st. unfold Subscribe, Unsubscribe, call, ret.
  repeat split.
Qed.

(** C3, as the description puts it, fails: the classes of the program
    define four functions, not two. *)
Lemma two_methods_fails :
  run import_env = (Ok tt, loaded_state import_env sample_typelib) /\
  length (program_methods (loaded_state import_env sample_typelib)) = 4 /\
  ~ two_methods (loaded_state import_env sample_typelib).
Proof.
  split; [ exact import_run | ].
  unfold two_methods. rewrite loaded_program_methods.
  split; [ reflexivity | ].
  intros [Hlen _]. discriminate Hlen.
Qed.

(** C3, amended.  The classes of the program define four functions in
    total: [NumberCruncher.ComputePi], which returns a hardcoded
    constant; [MyServerImpl.Subscribe] and [MyServerImpl.Unsubscribe],
    which do nothing; and [MyServerImpl.GetNumberCruncher], which is
    neither of the two: on the loaded server, whatever objects have
    come since, it creates a [NumberCruncher] object with one COM
    reference and returns the [INumberCruncher] pointer to it. *)
Theorem program_defines_four_methods env st :
  run env = (Ok tt, st) ->
  exists nc ms,
    program_classes st = [nc; ms] /\
    class_of_name st "NumberCruncher" = Some nc /\
    class_of_name st "MyServerImpl" = Some ms /\
    own_methods st nc = [def_ComputePi] /\
    own_methods st ms
    = [def_GetNumberCruncher; def_Subscribe; def_Unsubscribe] /\
    length (program_methods st) = 4 /\
    returns_constant def_ComputePi (VFloat pi_literal) /\
    returns_hardcoded_constant def_ComputePi /\
    is_noop def_Subscribe /\
    is_noop def_Unsubscribe /\
    ~ is_noop def_GetNumberCruncher /\
    ~ returns_hardcoded_constant def_GetNumberCruncher /\
    (forall extra self,
       call def_GetNumberCruncher [self] (with_objects extra st)
       = (Ok (VPointer "INumberCruncher" (length (heap st ++ extra))),
          with_objects
            [{| kind := Instance nc; dict := {[ "_refcnt" := VInt 1 ]} |}]
            (with_objects extra st))).
Proof.
  intros (tl & _ & _ & ->)%loaded_inv. exists 2, 3.
  split; [ apply loaded_program_classes | ].
  split; [ exact (proj1 (serving_class_of_name env tl [])) | ].
  split; [ exact (proj2 (serving_class_of_name env tl [])) | ].
  split; [ exact (proj1 (loaded_own_methods env tl)) | ].
  split; [ exact (proj2 (loaded_own_methods env tl)) | ].
  split; [ now rewrite loaded_program_methods | ].
  split; [ apply ComputePi_constant | ].
  split; [ apply ComputePi_hardcoded | ].
  split; [ apply Subscribe_noop | ].
  split; [ apply Unsubscribe_noop | ].
  split; [ exact (proj1 GetNumberCruncher_works) | ].
  split; [ exact (proj2 GetNumberCruncher_works) | ].
  intros extra self. apply call_GetNumberCruncher_with_objects.
Qed.

Lemma program_defines_four_methods_witness :
  let st := loaded_state import_env sample_typelib in
  run import_env = (Ok tt, st) /\
  exists nc ms,
    program_classes st = [nc; ms] /\
    class_of_name st "NumberCruncher" = Some nc /\
    class_of_name st "MyServerImpl" = Some ms /\
    own_methods st nc = [def_ComputePi] /\
    own_methods st ms
    = [def_GetNumberCruncher; def_Subscribe; def_Unsubscribe] /\
    length (program_methods st) = 4 /\
    returns_constant def_ComputePi (VFloat pi_literal) /\
    returns_hardcoded_constant def_ComputePi /\
    is_noop def_Subscribe /\
    is_noop def_Unsubscribe /\
    ~ is_noop def_GetNumberCruncher /\
    ~ returns_hardcoded_constant def_GetNumberCruncher /\
    (forall extra self,
       call def_GetNumberCruncher [self] (with_objects extra st)
       = (Ok (VPointer "INumberCruncher" (length (heap st ++ extra))),
          with_objects
            [{| kind := Instance nc; dict := {[ "_refcnt" := VInt 1 ]} |}]
            (with_objects extra st))).
Proof.
  split; [ exact import_run | ].
  exact (program_defines_four_methods import_env _ import_run).
Defined.

(** C4, as the description puts it, fails: a call of
    [GetNumberCruncher] on the loaded server leaves a fifth object on
    the heap. *)
Lemma GetNumberCruncher_changes_state :
  run import_env = (Ok tt, loaded_state import_env sample_typelib) /\
  length (heap (loaded_state import_env sample_typelib)) = 4 /\
  length (heap (snd (call def_GetNumberCruncher [VRef 3]
                       (loaded_state import_env sample_typelib)))) = 5 /\
  ~ every_call_leaves_state (loaded_state import_env sample_typelib).
Proof.
  split; [ exact import_run | ].
  split; [ reflexivity | ].
  assert (H : length (heap (snd (call def_GetNumberCruncher [VRef 3]
                (loaded_state import_env sample_typelib)))) = 5).
  { cbn [call].
    rewrite (GetNumberCruncher_serving import_env sample_typelib []).
    reflexivity. }
  split; [ exact H | ].
  intros Hsame. rewrite (Hsame def_GetNumberCruncher [VRef 3]) in H.
  discriminate H.
Qed.

(** C4, amended.  [ComputePi], [Subscribe] and [Unsubscribe] leave the
    whole state as it is, for any arguments and any state, and so does
    [GetNumberCruncher] called with the wrong number of arguments.
    [GetNumberCruncher] otherwise leaves the module namespace, the
    trace and every object that was there as they are, and on the
    loaded server adds one thing: the [NumberCruncher] object, with one
    COM reference, that it hands out.  No call depends on the calls
    before it or on the objects that have come since the module was
    loaded: it comes out as it would have at the start. *)
Theorem calls_leave_state env st0 :
  run env = (Ok tt, st0) ->
  (forall f args st, frame st (snd (call f args st))) /\
  (forall f args st a o,
     heap st !! a = Some o -> heap (snd (call f args st)) !! a = Some o) /\
  (forall f args st,
     f = def_GetNumberCruncher \/ snd (call f args st) = st) /\
  (forall args st,
     length args <> 1 -> snd (call def_GetNumberCruncher args st) = st) /\
  (exists c,
     class_of_name st0 "NumberCruncher" = Some c /\
     forall extra self,
       snd (call def_GetNumberCruncher [self] (with_objects extra st0))
       = with_objects
           [{| kind := Instance c; dict := {[ "_refcnt" := VInt 1 ]} |}]
           (with_objects extra st0)) /\
  (forall extra f args,
     shape (fst (call f args (with_objects extra st0)))
     = shape (fst (call f args st0))) /\
  (forall calls f args,
     shape (fst (call f args (run_calls calls st0)))
     = shape (fst (call f args st0))).
Proof.
  intros Hrun.
  split; [ exact call_frame | ].
  split; [ intros f args st a o; apply frame_lookup, call_frame | ].
  split; [ exact call_same | ].
  split.
  { intros [|self [|more args]] st Hlen; try reflexivity.
    now contradiction Hlen. }
  destruct (loaded_inv env st0 Hrun) as (tl & _ & _ & ->).
  split.
  { exists 2. split; [ exact (proj1 (serving_class_of_name env tl [])) | ].
    intros extra self.
    now rewrite call_GetNumberCruncher_with_objects. }
  split; [ intros extra f args; apply (call_shape_serving env tl extra) | ].
  intros calls f args.
  destruct (reachable_inv env _ calls Hrun) as (tl' & extra & Heq & -> & _).
  rewrite Heq. apply call_shape_serving.
Qed.

Lemma calls_leave_state_witness :
  let st0 := loaded_state script_env sample_typelib in
  run script_env = (Ok tt, st0) /\
  frame st0 (snd (call def_GetNumberCruncher [VRef 3] st0)) /\
  snd (call def_Subscribe [VRef 3; VNone] st0) = st0 /\
  snd (call def_GetNumberCruncher [VRef 3] (with_objects [] st0))
  = with_objects
      [{| kind := Instance 2; dict := {[ "_refcnt" := VInt 1 ]} |}]
      (with_objects [] st0) /\
  shape (fst (call def_GetNumberCruncher [VRef 3]
                (run_calls [(def_GetNumberCruncher, [VRef 3]);
                            (def_Subscribe, [VRef 3; VNone])] st0)))
  = shape (fst (call def_GetNumberCruncher [VRef 3] st0)).
Proof.
  split; [ exact script_run | ].
  destruct (calls_leave_state script_env _ script_run)
    as (H1 & _ & H3 & _ & (c & Hc & H5) & _ & H7).
  split; [ apply H1 | ].
  split.
  { destruct (H3 def_Subscribe [VRef 3; VNone]
                (loaded_state script_env sample_typelib)) as [H | H];
      [ discriminate H | exact H ]. }
  split; [ | apply H7 ].
  injection Hc as <-. apply H5.
Defined.




(** C6.  The class handed to the registration entry point,
    [MyServerImpl], is set up as an out-of-process server: its
    [_reg_clsctx_] is [CLSCTX_LOCAL_SERVER], which has no in-process bit,
    and its [_regcls_] is [REGCLS_MULTIPLEUSE]. *)
Theorem MyServerImpl_is_local_server env st :
  run env = (Ok tt, st) ->
  exists c,
    class_of_name st "MyServerImpl" = Some c /\
    find_attr (heap st) (VRef c) "_reg_clsctx_"
      = Some (VInt comtypes.CLSCTX_LOCAL_SERVER) /\
    find_attr (heap st) (VRef c) "_regcls_"
      = Some (VInt comtypes.server.localserver.REGCLS_MULTIPLEUSE) /\
    Z.land comtypes.CLSCTX_LOCAL_SERVER comtypes.CLSCTX_INPROC_SERVER = 0%Z /\
    passed_to_UseCommandLine st c = is_main env.
Proof.
  intros (tl & _ & _ & ->)%loaded_inv. exists 3.
  split; [ exact (proj2 (serving_class_of_name env tl [])) | ].
  split; [ reflexivity | ].
  split; [ reflexivity | ].
  split; [ reflexivity | ].
  exact (proj2 (serving_passed env tl [])).
Qed.

Lemma MyServerImpl_is_local_server_witness :
  run script_env = (Ok tt, loaded_state script_env sample_typelib) /\
  exists c,
    class_of_name (loaded_state script_env sample_typelib) "MyServerImpl"
      = Some c /\
    find_attr (heap (loaded_state script_env sample_typelib)) (VRef c)
      "_reg_clsctx_" = Some (VInt comtypes.CLSCTX_LOCAL_SERVER) /\
    find_attr (heap (loaded_state script_env sample_typelib)) (VRef c)
      "_regcls_" = Some (VInt comtypes.server.localserver.REGCLS_MULTIPLEUSE) /\
    Z.land comtypes.CLSCTX_LOCAL_SERVER comtypes.CLSCTX_INPROC_SERVER = 0%Z /\
    passed_to_UseCommandLine (loaded_state script_env sample_typelib) c
      = is_main script_env.
Proof.
  split; [ exact script_run | ].
  exact (MyServerImpl_is_local_server script_env _ script_run).
Defined.

(** C7.  Run as a script, the module does what an import of it does and
    then one thing more: it calls [UseCommandLine] on [MyServerImpl],
    once, and leaves the command line to it.  The import itself makes no
    such call, and the script run leaves the same objects as the import
    does: registration and activation are all in that one call. *)
Theorem script_run_delegates_to_UseCommandLine env st :
  is_main env = true ->
  run env = (Ok tt, st) ->
  exists c st',
    class_of_name st "MyServerImpl" = Some c /\
    run (imported_as "MyExeServerPy" env) = (Ok tt, st') /\
    existsb is_UseCommandLine (trace st') = false /\
    trace st = trace st' ++ [Call_UseCommandLine [VRef c] (argv env)] /\
    heap st = heap st' /\
    globals st
    = <["UseCommandLine" := VLib "comtypes.server.register.UseCommandLine"]>
        (<["__name__" := VStr "__main__"]> (globals st')).
Proof.
  intros Hmain (tl & Hc & Hp & Hver & Htl & HI & HS & ->)%loaded_conditions.
  exists 3, (loaded_state (imported_as "MyExeServerPy" env) tl).
  split; [ exact (proj2 (serving_class_of_name env tl [])) | ].
  split.
  { now rewrite (run_loaded (imported_as "MyExeServerPy" env) tl). }
  unfold loaded_state.
  change (is_main (imported_as "MyExeServerPy" env)) with false.
  rewrite Hmain, (is_main_eq env Hmain).
  cbn [heap globals trace imported_as __name__ app].
  split; [ reflexivity | ].
  split; [ reflexivity | ].
  split; [ reflexivity | ].
  now rewrite classes_globals_name.
Qed.

Lemma script_run_delegates_to_UseCommandLine_witness :
  is_main script_env = true /\
  run script_env = (Ok tt, loaded_state script_env sample_typelib) /\
  exists c st',
    class_of_name (loaded_state script_env sample_typelib) "MyServerImpl"
      = Some c /\
    run (imported_as "MyExeServerPy" script_env) = (Ok tt, st') /\
    existsb is_UseCommandLine (trace st') = false /\
    trace (loaded_state script_env sample_typelib)
      = trace st' ++ [Call_UseCommandLine [VRef c] (argv script_env)] /\
    heap (loaded_state script_env sample_typelib) = heap st' /\
    globals (loaded_state script_env sample_typelib)
    = <["UseCommandLine" := VLib "comtypes.server.register.UseCommandLine"]>
        (<["__name__" := VStr "__main__"]> (globals st')).
Proof.
  split; [ reflexivity | ].
  split; [ exact script_run | ].
  exact (script_run_delegates_to_UseCommandLine script_env _
           eq_refl script_run).
Defined.

(** C8.  On a loaded server every call of [GetNumberCruncher] makes a
    new [NumberCruncher] object and returns the [INumberCruncher]
    pointer to it: the address returned holds no object before the
    call and an instance of the class after it; and a later call,
    whatever calls lie between the two, returns another object. *)
Theorem GetNumberCruncher_returns_fresh_object env st0
    calls1 self1 calls2 self2 :
  run env = (Ok tt, st0) ->
  let st1 := run_calls calls1 st0 in
  let r1 := GetNumberCruncher self1 st1 in
  let st2 := run_calls calls2 (snd r1) in
  let r2 := GetNumberCruncher self2 st2 in
  exists c a1 a2,
    class_of_name st0 "NumberCruncher" = Some c /\
    fst r1 = Ok (VPointer "INumberCruncher" a1) /\
    heap st1 !! a1 = None /\
    heap (snd r1) !! a1
      = Some {| kind := Instance c; dict := {[ "_refcnt" := VInt 1 ]} |} /\
    fst r2 = Ok (VPointer "INumberCruncher" a2) /\
    heap st2 !! a2 = None /\
    heap (snd r2) !! a2
      = Some {| kind := Instance c; dict := {[ "_refcnt" := VInt 1 ]} |} /\
    a1 <> a2.
Proof.
  intros Hrun st1 r1 st2 r2.
  destruct (reachable_inv env st0 calls1 Hrun) as (tl & e1 & Hst0 & Hst1 & _).
  subst st0. fold st1 in Hst1.
  assert (Hr1 : r1 = (Ok (VPointer "INumberCruncher" (4 + length e1)),
                      serving_state env tl (e1 ++ [cruncher 1]))).
  { subst r1. rewrite Hst1. apply GetNumberCruncher_serving. }
  destruct (run_calls_serving env tl calls2 (e1 ++ [cruncher 1]))
    as (e2 & Hst2 & _).
  assert (Hst2' : st2 = serving_state env tl ((e1 ++ [cruncher 1]) ++ e2)).
  { subst st2. rewrite Hr1. exact Hst2. }
  assert (Hr2 : r2 = (Ok (VPointer "INumberCruncher"
                            (4 + length ((e1 ++ [cruncher 1]) ++ e2))),
                      serving_state env tl
                        (((e1 ++ [cruncher 1]) ++ e2) ++ [cruncher 1]))).
  { subst r2. rewrite Hst2'. apply GetNumberCruncher_serving. }
  exists 2, (4 + length e1), (4 + length ((e1 ++ [cruncher 1]) ++ e2)).
  rewrite Hr1, Hr2, Hst1, Hst2'. cbn [fst snd].
  split; [ exact (proj1 (serving_class_of_name env tl [])) | ].
  split; [ reflexivity | ].
  split; [ apply serving_lookup_fresh | ].
  split; [ apply serving_lookup_last | ].
  split; [ reflexivity | ].
  split; [ apply serving_lookup_fresh | ].
  split; [ apply serving_lookup_last | ].
  rewrite !length_app. cbn [length]. lia.
Qed.

Lemma GetNumberCruncher_returns_fresh_object_witness :
  let st0 := loaded_state import_env sample_typelib in
  let r1 := GetNumberCruncher (VRef 3) st0 in
  let r2 := GetNumberCruncher (VRef 3)
              (run_calls [(def_ComputePi, [VRef 4])] (snd r1)) in
  run import_env = (Ok tt, st0) /\
  exists c a1 a2,
    class_of_name st0 "NumberCruncher" = Some c /\
    fst r1 = Ok (VPointer "INumberCruncher" a1) /\
    heap st0 !! a1 = None /\
    heap (snd r1) !! a1
      = Some {| kind := Instance c; dict := {[ "_refcnt" := VInt 1 ]} |} /\
    fst r2 = Ok (VPointer "INumberCruncher" a2) /\
    heap (run_calls [(def_ComputePi, [VRef 4])] (snd r1)) !! a2 = None /\
    heap (snd r2) !! a2
      = Some {| kind := Instance c; dict := {[ "_refcnt" := VInt 1 ]} |} /\
    a1 <> a2.
Proof.
  split; [ exact import_run | ].
  exact (GetNumberCruncher_returns_fresh_object import_env _
           [] (VRef 3) [(def_ComputePi, [VRef 4])] (VRef 3) import_run).
Defined.

(** C9, as the description puts it, fails: where packaging is not
    installed, line 8 raises [ModuleNotFoundError], which is an
    [ImportError], although the installed comtypes is 1.4.10. *)
Lemma ImportError_without_old_comtypes :
  fst (run no_packaging_env) = Raise (ModuleNotFoundError "packaging") /\
  raises_ImportError (fst (run no_packaging_env)) = true /\
  ltb (comtypes___version__ no_packaging_env) parse_1_4_9 = false /\
  ~ ImportError_iff_old_comtypes no_packaging_env.
Proof.
  assert (H : fst (run no_packaging_env)
              = Raise (ModuleNotFoundError "packaging"))
    by (rewrite run_spec; reflexivity).
  split; [ exact H | ].
  split; [ now rewrite H | ].
  split; [ reflexivity | ].
  intros [Hold _]. rewrite H in Hold. specialize (Hold eq_refl).
  discriminate Hold.
Qed.

(** C9, amended.  Where comtypes and packaging can be imported: a
    comtypes older than 1.4.9 makes the module raise the guard's
    [ImportError], and an import of the module raises an [ImportError]
    only then, as does a script run in which [UseCommandLine] raises
    none of its own; for a final release a.b.c that is exactly when
    (a, b, c) comes before (1, 4, 9).  When the guard raises, the type
    library has not been loaded, [GetModule] has not even been called,
    and no class is defined. *)
Theorem import_guard env :
  installed env "comtypes" = true ->
  installed env "packaging" = true ->
  (ltb (comtypes___version__ env) parse_1_4_9 = true ->
   fst (run env) = Raise import_error) /\
  (is_main env = false ->
   (raises_ImportError (fst (run env)) = true
    <-> ltb (comtypes___version__ env) parse_1_4_9 = true)) /\
  (is_main env = false ->
   forall a b c,
     comtypes___version__ env = final [a; b; c] ->
     (raises_ImportError (fst (run env)) = true <-> before_1_4_9 a b c)) /\
  ((forall classes,
      raises_ImportError (UseCommandLine_outcome env classes (argv env))
      = false) ->
   (raises_ImportError (fst (run env)) = true
    <-> ltb (comtypes___version__ env) parse_1_4_9 = true)) /\
  (ltb (comtypes___version__ env) parse_1_4_9 = true ->
   heap (snd (run env)) = [] /\
   trace (snd (run env)) = [] /\
   program_classes (snd (run env)) = [] /\
   globals (snd (run env)) !! "MyInterfaces" = None /\
   globals (snd (run env)) !! "NumberCruncher" = None /\
   globals (snd (run env)) !! "MyServerImpl" = None).
Proof.
  intros Hc Hp.
  assert (Hiff : is_main env = false ->
            (raises_ImportError (fst (run env)) = true
             <-> ltb (comtypes___version__ env) parse_1_4_9 = true)).
  { intros Himport. rewrite run_spec. unfold run_outcome.
    rewrite Hc, Hp, Himport.
    destruct (ltb (comtypes___version__ env) parse_1_4_9);
      [ split; reflexivity | ].
    destruct (typelibs env tlb_path) as [tl|];
      [ destruct (tl_INumberCruncher tl), (tl_MyServer tl) | ];
      split; discriminate. }
  split.
  { intros Hold. rewrite run_spec. unfold run_outcome.
    now rewrite Hc, Hp, Hold. }
  split; [ exact Hiff | ].
  split.
  { intros Himport a b c Hv. rewrite (Hiff Himport), Hv.
    apply final_release_older. }
  split.
  { intros Hquiet. rewrite run_spec. unfold run_outcome.
    rewrite Hc, Hp.
    destruct (ltb (comtypes___version__ env) parse_1_4_9);
      [ split; reflexivity | ].
    destruct (typelibs env tlb_path) as [tl|];
      [ destruct (tl_INumberCruncher tl), (tl_MyServer tl) | ];
      cbn [fst]; try (split; discriminate).
    destruct (is_main env); [ rewrite Hquiet | ]; split; discriminate. }
  intros Hold. rewrite run_spec. unfold run_outcome.
  rewrite Hc, Hp, Hold. cbn [snd stopped_state heap trace globals].
  unfold program_classes, class_of_name; cbn [globals].
  repeat split; vm_compute; reflexivity.
Qed.

Lemma import_guard_witness :
  installed old_env "comtypes" = true /\
  installed old_env "packaging" = true /\
  comtypes___version__ old_env = final [1; 4; 8] /\
  fst (run old_env) = Raise import_error /\
  raises_ImportError (fst (run old_env)) = true /\
  heap (snd (run old_env)) = [] /\
  trace (snd (run old_env)) = [] /\
  program_classes (snd (run old_env)) = [].
Proof.
  destruct (import_guard old_env eq_refl eq_refl)
    as (H1 & H2 & H3 & _ & H4).
  destruct (H4 eq_refl) as (Hh & Ht & Hp & _).
  split; [ reflexivity | ].
  split; [ reflexivity | ].
  split; [ reflexivity | ].
  split; [ exact (H1 eq_refl) | ].
  split; [ exact (proj2 (H2 eq_refl) eq_refl) | ].
  split; [ exact Hh | ].
  split; [ exact Ht | exact Hp ].
Defined.

(** C10.  [NumberCruncher] cannot be created by clients.  Its class
    lists the one interface [INumberCruncher]; neither it nor a base of
    it has a CLSID or any other registry attribute; it is never handed
    to the registration entry point; no instance of anything exists
    when the module has loaded; and of the calls a client can make only
    [GetNumberCruncher] adds an object to the heap. *)
Theorem NumberCruncher_is_not_creatable env st0 calls :
  run env = (Ok tt, st0) ->
  let st := run_calls calls st0 in
  exists c,
    class_of_name st "NumberCruncher" = Some c /\
    find_attr (heap st) (VRef c) "_com_interfaces_"
      = Some (VList [VInterface "INumberCruncher"]) /\
    existsb (hasattr (heap st) (VRef c)) registry_attributes = false /\
    passed_to_UseCommandLine st c = false /\
    existsb is_instance (heap st0) = false /\
    (forall f args,
       f = def_GetNumberCruncher \/ heap (snd (call f args st)) = heap st).
Proof.
  intros Hrun st.
  destruct (reachable_inv env st0 calls Hrun) as (tl & extra & -> & Hst & _).
  fold st in Hst. rewrite Hst. exists 2.
  split; [ exact (proj1 (serving_class_of_name env tl extra)) | ].
  split; [ reflexivity | ].
  split; [ apply serving_no_registry_attribute | ].
  split; [ exact (proj1 (serving_passed env tl extra)) | ].
  split; [ reflexivity | ].
  intros f args.
  destruct (call_same f args (serving_state env tl extra)) as [-> | ->];
    [ left | right ]; reflexivity.
Qed.

Lemma NumberCruncher_is_not_creatable_witness :
  let st0 := loaded_state script_env sample_typelib in
  let st := run_calls [(def_GetNumberCruncher, [VRef 3])] st0 in
  run script_env = (Ok tt, st0) /\
  exists c,
    class_of_name st "NumberCruncher" = Some c /\
    find_attr (heap st) (VRef c) "_com_interfaces_"
      = Some (VList [VInterface "INumberCruncher"]) /\
    existsb (hasattr (heap st) (VRef c)) registry_attributes = false /\
    passed_to_UseCommandLine st c = false /\
    existsb is_instance (heap st0) = false /\
    (forall f args,
       f = def_GetNumberCruncher \/ heap (snd (call f args st)) = heap st).
Proof.
  split; [ exact script_run | ].
  exact (NumberCruncher_is_not_creatable script_env _
           [(def_GetNumberCruncher, [VRef 3])] script_run).
Defined.

(** ** Further properties *)

(** X1.  An import of the module gets through exactly when comtypes
    and packaging can be imported, the installed comtypes passes the
    guard, and the type library at the Debug path loads and declares
    [INumberCruncher] and [MyServer]; no run gets through otherwise,
    and a script run that gets that far ends as [UseCommandLine] ends.
    When the guard passes and the library file does not load, the run
    stops at the [GetModule] call with the loader's error, which is no
    [ImportError]: that call is the only one made into the runtime,
    nothing is on the heap and no class name is bound. *)
Theorem run_succeeds_iff_loads env :
  (fst (run env) = Ok tt -> loads env = true) /\
  (is_main env = false -> (fst (run env) = Ok tt <-> loads env = true)) /\
  (is_main env = true -> loads env = true ->
   exists c,
     class_of_name (snd (run env)) "MyServerImpl" = Some c /\
     fst (run env) = UseCommandLine_outcome env [VRef c] (argv env)) /\
  (installed env "comtypes" = true ->
   installed env "packaging" = true ->
   ltb (comtypes___version__ env) parse_1_4_9 = false ->
   typelibs env tlb_path = None ->
   fst (run env) = Raise (OSError tlb_path) /\
   raises_ImportError (fst (run env)) = false /\
   heap (snd (run env)) = [] /\
   trace (snd (run env)) = [Call_GetModule tlb_path] /\
   program_classes (snd (run env)) = [] /\
   globals (snd (run env)) !! "MyInterfaces" = None).
Proof.
  rewrite run_spec. unfold run_outcome, loads.
  destruct (installed env "comtypes");
    [ | repeat split; intros; discriminate ].
  destruct (installed env "packaging");
    [ | repeat split; intros; discriminate ].
  destruct (ltb (comtypes___version__ env) parse_1_4_9);
    [ repeat split; intros; discriminate | ].
  destruct (typelibs env tlb_path) as [tl|].
  - destruct (tl_INumberCruncher tl);
      [ | repeat split; intros; discriminate ].
    destruct (tl_MyServer tl);
      [ | repeat split; intros; discriminate ].
    cbn [negb andb fst snd].
    split; [ reflexivity | ].
    split; [ intros ->; split; reflexivity | ].
    split; [ | discriminate ].
    intros -> _. exists 3.
    split; [ | reflexivity ].
    pose proof (proj2 (serving_class_of_name env tl [])) as Hc.
    exact Hc.
  - cbn [negb andb fst snd].
    split; [ discriminate | ].
    split; [ intros _; split; discriminate | ].
    split; [ discriminate | ].
    intros _ _ _ _. unfold no_typelib_state, program_classes, class_of_name.
    cbn [heap trace globals raises_ImportError is_ImportError].
    repeat split; vm_compute; reflexivity.
Qed.

(** X2.  [UseCommandLine] is called exactly when the module is run as
    a script and gets through; then once, as the last thing, with
    [MyServerImpl] alone and the command line as it is.  An import
    never calls it, and neither does a run that the guard or the type
    library stops: with an old comtypes nothing is registered. *)
Theorem UseCommandLine_called_iff env :
  existsb is_UseCommandLine (trace (snd (run env)))
  = (is_main env && loads env) /\
  List.filter is_UseCommandLine (trace (snd (run env)))
  = match class_of_name (snd (run env)) "MyServerImpl" with
    | Some c =>
        if is_main env
        then [Call_UseCommandLine [VRef c] (argv env)]
        else []
    | None => []
    end.
Proof.
  rewrite run_spec. unfold run_outcome, loads.
  destruct (installed env "comtypes");
    [ | rewrite andb_false_r; split; vm_compute; reflexivity ].
  destruct (installed env "packaging");
    [ | rewrite andb_false_r; split; vm_compute; reflexivity ].
  destruct (ltb (comtypes___version__ env) parse_1_4_9);
    [ rewrite andb_false_r; split; vm_compute; reflexivity | ].
  destruct (typelibs env tlb_path) as [tl|];
    [ | rewrite andb_false_r; split; vm_compute; reflexivity ].
  destruct (tl_INumberCruncher tl);
    [ | rewrite andb_false_r; split; vm_compute; reflexivity ].
  destruct (tl_MyServer tl) eqn:HS.
  - cbn [negb andb fst snd]. rewrite andb_true_r.
    pose proof (proj2 (serving_class_of_name env tl [])) as Hc.
    change (serving_state env tl []) with (loaded_state env tl) in Hc.
    rewrite Hc. unfold loaded_state; cbn [trace].
    destruct (is_main env); split; reflexivity.
  - rewrite andb_false_r. cbn [fst snd].
    unfold half_loaded_state, class_of_name; cbn [trace globals].
    split; vm_compute; reflexivity.
Qed.

(** X3.  The program itself never looks at the command line.  With
    any other command line the run leaves the same heap and the same
    module namespace and makes the same calls into the runtime, with
    the command line it was given handed on to [UseCommandLine]
    unchanged.  An import, and a run that stops before its last
    statement, is the same altogether; a script run can end differently
    only as [UseCommandLine] makes it. *)
Theorem run_ignores_command_line env av :
  heap (snd (run (with_argv av env))) = heap (snd (run env)) /\
  globals (snd (run (with_argv av env))) = globals (snd (run env)) /\
  map forget_argv (trace (snd (run (with_argv av env))))
  = map forget_argv (trace (snd (run env))) /\
  (is_main env = false -> run (with_argv av env) = run env) /\
  (loads env = false -> run (with_argv av env) = run env) /\
  ((forall classes,
      UseCommandLine_outcome env classes av
      = UseCommandLine_outcome env classes (argv env)) ->
   fst (run (with_argv av env)) = fst (run env)) /\
  (is_main env = true -> loads env = true ->
   exists c,
     last (trace (snd (run (with_argv av env))))
     = Some (Call_UseCommandLine [VRef c] av)).
Proof.
  rewrite !run_spec. unfold run_outcome, loads, with_argv.
  cbn [installed comtypes___version__ typelibs __name__
       UseCommandLine_outcome argv].
  destruct (installed env "comtypes");
    [ | repeat split; intros; try reflexivity; discriminate ].
  destruct (installed env "packaging");
    [ | repeat split; intros; try reflexivity; discriminate ].
  destruct (ltb (comtypes___version__ env) parse_1_4_9);
    [ repeat split; intros; try reflexivity; discriminate | ].
  destruct (typelibs env tlb_path) as [tl|];
    [ | repeat split; intros; try reflexivity; discriminate ].
  destruct (tl_INumberCruncher tl);
    [ | repeat split; intros; try reflexivity; discriminate ].
  destruct (tl_MyServer tl);
    [ | repeat split; intros; try reflexivity; discriminate ].
  unfold loaded_state, is_main;
    cbn [__name__ argv heap globals trace fst snd negb andb].
  destruct (String.eqb (__name__ env) "__main__").
  - split; [ reflexivity | ].
    split; [ reflexivity | ].
    split; [ reflexivity | ].
    split; [ discriminate | ].
    split; [ discriminate | ].
    split; [ intros H; apply H | ].
    intros _ _. exists 3. reflexivity.
  - repeat split; intros; try reflexivity; discriminate.
Qed.

(** X4.  The one type library the program reads is the Debug build's.
    Whatever other files there are, a Release build's library among
    them, the run is the same. *)
Theorem run_reads_only_the_Debug_typelib env files :
  files tlb_path = typelibs env tlb_path ->
  run (with_typelibs files env) = run env.
Proof.
  intros Hsame. rewrite !run_spec. unfold run_outcome, with_typelibs.
  cbn [installed comtypes___version__ typelibs __name__
       UseCommandLine_outcome argv].
  rewrite Hsame. unfold is_main, loaded_state, is_main.
  cbn [__name__ argv]. reflexivity.
Qed.

Lemma run_reads_only_the_Debug_typelib_witness :
  release_only tlb_path = typelibs (with_typelibs (fun _ => None) script_env)
                            tlb_path /\
  run (with_typelibs release_only
         (with_typelibs (fun _ => None) script_env))
  = run (with_typelibs (fun _ => None) script_env) /\
  fst (run (with_typelibs release_only script_env))
  = Raise (OSError tlb_path).
Proof.
  split; [ reflexivity | ].
  split.
  - exact (run_reads_only_the_Debug_typelib
             (with_typelibs (fun _ => None) script_env) release_only eq_refl).
  - rewrite run_spec. reflexivity.
Defined.

(** X5.  [MyServerImpl] sets no CLSID and no interface list of its
    own: it gets both from its base, the coclass [MyServer] of the
    type library, ahead of which it stands in the resolution order.
    So the class is registered under the CLSID the type library
    gives. *)
Theorem MyServerImpl_inherits_from_MyServer env st :
  run env = (Ok tt, st) ->
  exists tl m ms base o,
    typelibs env tlb_path = Some tl /\
    class_of_name st "MyServerImpl" = Some ms /\
    globals st !! "MyInterfaces" = Some (VRef m) /\
    find_attr (heap st) (VRef m) "MyServer" = Some (VRef base) /\
    heap st !! ms = Some o /\
    kind o = Class "MyServerImpl" (VRef base) [ms; base] /\
    has_key o "_reg_clsid_" = false /\
    has_key o "_com_interfaces_" = false /\
    find_attr (heap st) (VRef ms) "_reg_clsid_"
      = Some (VStr (tl_MyServer_clsid tl)) /\
    find_attr (heap st) (VRef ms) "_com_interfaces_"
      = Some (VList (map VInterface (tl_MyServer_interfaces tl))) /\
    find_attr (heap st) (VRef ms) "_reg_desc_"
      = Some (VStr "Python-based COM server for testing") /\
    find_attr (heap st) (VRef ms) "_reg_threading_" = Some (VStr "Both").
Proof.
  intros (tl & Htl & _ & ->)%loaded_inv.
  exists tl, 1, 3, 0, MyServerImpl_object.
  split; [ exact Htl | ].
  split; [ exact (proj2 (serving_class_of_name env tl [])) | ].
  split; [ apply loaded_globals_MyInterfaces | ].
  split; [ reflexivity | ].
  repeat (split; [ reflexivity | ]). reflexivity.
Qed.

Lemma MyServerImpl_inherits_from_MyServer_witness :
  let st := loaded_state script_env sample_typelib in
  run script_env = (Ok tt, st) /\
  exists tl m ms base o,
    typelibs script_env tlb_path = Some tl /\
    class_of_name st "MyServerImpl" = Some ms /\
    globals st !! "MyInterfaces" = Some (VRef m) /\
    find_attr (heap st) (VRef m) "MyServer" = Some (VRef base) /\
    heap st !! ms = Some o /\
    kind o = Class "MyServerImpl" (VRef base) [ms; base] /\
    has_key o "_reg_clsid_" = false /\
    has_key o "_com_interfaces_" = false /\
    find_attr (heap st) (VRef ms) "_reg_clsid_"
      = Some (VStr (tl_MyServer_clsid tl)) /\
    find_attr (heap st) (VRef ms) "_com_interfaces_"
      = Some (VList (map VInterface (tl_MyServer_interfaces tl))) /\
    find_attr (heap st) (VRef ms) "_reg_desc_"
      = Some (VStr "Python-based COM server for testing") /\
    find_attr (heap st) (VRef ms) "_reg_threading_" = Some (VStr "Both").
Proof.
  split; [ exact script_run | ].
  exact (MyServerImpl_inherits_from_MyServer script_env _ script_run).
Defined.

Lemma CreateInstance_serving env tl extra :
  CreateInstance "MyServerImpl" (serving_state env tl extra)
  = (Ok (VRef (4 + length extra)),
     serving_state env tl
       (extra ++ [{| kind := Instance 3;
                     dict := {[ "_refcnt" := VInt 0 ]} |}])).
Proof.
  unfold CreateInstance.
  rewrite (bind_ok _ _ _ (VRef 3) (serving_state env tl extra)).
  - unfold comtypes.COMObject_new, serving_state, loaded_heap.
    cbn -[loaded_state]. reflexivity.
  - apply global_ok. unfold serving_state, loaded_state; cbn [globals].
    destruct (is_main env); vm_compute; reflexivity.
Qed.

Lemma server_attr env tl extra o name :
  kind o = Instance 3 ->
  dict o !! name = None ->
  find_attr (heap (serving_state env tl (extra ++ [o])))
    (VRef (4 + length extra)) name
  = lookup_mro (heap (serving_state env tl (extra ++ [o]))) [3; 0] name.
Proof.
  intros Hk Hd. unfold find_attr. rewrite serving_lookup_last.
  destruct o as [k d]. cbn [kind dict] in Hk, Hd. subst k. rewrite Hd.
  reflexivity.
Qed.

Lemma cruncher_attr env tl extra rc name :
  name <> "_refcnt" ->
  find_attr (heap (serving_state env tl (extra ++ [cruncher rc])))
    (VRef (4 + length extra)) name
  = dict NumberCruncher_object !! name.
Proof.
  intros Hne. unfold find_attr. rewrite serving_lookup_last.
  unfold cruncher. rewrite lookup_singleton_ne by congruence.
  change (lookup_mro (loaded_heap tl ++ extra ++ [cruncher rc]) [2] name
          = dict NumberCruncher_object !! name).
  unfold loaded_heap. cbn [lookup_mro app lookup list_lookup].
  now destruct (dict NumberCruncher_object !! name).
Qed.

(** X6.  A client's session on a loaded server, whatever calls came
    before: the server object answers [GetNumberCruncher], and the
    object that returns answers [ComputePi] with 3.14.  The two classes
    keep their methods apart: the server object has no [ComputePi],
    and the number cruncher has no [Subscribe], [Unsubscribe] or
    [GetNumberCruncher]; asking for them raises [AttributeError]. *)
Theorem client_session_computes_pi env st0 calls :
  run env = (Ok tt, st0) ->
  let st := run_calls calls st0 in
  fst (ask_cruncher "ComputePi" [] st) = Ok (VFloat pi_literal) /\
  frame st (snd (ask_cruncher "ComputePi" [] st)) /\
  fst (ask_server "Subscribe" [VNone] st) = Ok VNone /\
  fst (ask_server "Unsubscribe" [VNone] st) = Ok VNone /\
  fst (ask_server "ComputePi" [] st) = Raise (AttributeError "ComputePi") /\
  fst (ask_cruncher "Subscribe" [VNone] st)
  = Raise (AttributeError "Subscribe") /\
  fst (ask_cruncher "Unsubscribe" [VNone] st)
  = Raise (AttributeError "Unsubscribe") /\
  fst (ask_cruncher "GetNumberCruncher" [] st)
  = Raise (AttributeError "GetNumberCruncher").
Proof.
  intros Hrun st.
  destruct (reachable_inv env st0 calls Hrun) as (tl & extra & -> & Hst & _).
  fold st in Hst. rewrite Hst. clear Hst st Hrun.
  set (server := {| kind := Instance 3; dict := {[ "_refcnt" := VInt 0 ]} |}).
  assert (Hserver : forall name f,
             name <> "_refcnt" ->
             dict MyServerImpl_object !! name = Some (VFunction f) ->
             getattr (VRef (4 + length extra)) name
               (serving_state env tl (extra ++ [server]))
             = (Ok (VFunction f), serving_state env tl (extra ++ [server]))).
  { intros name f Hne Hf. apply getattr_ok.
    rewrite server_attr; [ | reflexivity | now apply lookup_singleton_ne ].
    unfold serving_state, loaded_heap; cbn [heap app lookup_mro lookup list_lookup].
    now rewrite Hf. }
  assert (Hask : forall method args,
             ask_cruncher method args (serving_state env tl extra)
             = call_method (VRef (4 + length (extra ++ [server]))) method args
                 (serving_state env tl ((extra ++ [server]) ++ [cruncher 1]))).
  { intros method args. unfold ask_cruncher.
    rewrite (bind_ok _ _ _ _ _ (CreateInstance_serving env tl extra)).
    fold server.
    rewrite (bind_ok _ _ _
               (VPointer "INumberCruncher" (4 + length (extra ++ [server])))
               (serving_state env tl ((extra ++ [server]) ++ [cruncher 1]))).
    - reflexivity.
    - unfold call_method.
      rewrite (bind_ok _ _ _ _ _
                 (Hserver "GetNumberCruncher" def_GetNumberCruncher
                    ltac:(discriminate) eq_refl)).
      cbn [call]. apply GetNumberCruncher_serving. }
  assert (Hmissing : forall method args,
             method <> "_refcnt" ->
             dict NumberCruncher_object !! method = None ->
             fst (ask_cruncher method args (serving_state env tl extra))
             = Raise (AttributeError method)).
  { intros method args Hne Hnone. rewrite Hask. unfold call_method, bind, getattr.
    rewrite cruncher_attr by exact Hne. now rewrite Hnone. }
  split; [ rewrite Hask; now rewrite ComputePi_on_returned_object | ].
  split.
  { rewrite Hask, ComputePi_on_returned_object. cbn [snd].
    repeat split. exists ([server] ++ [cruncher 1]).
    unfold serving_state; cbn [heap]. now rewrite <- !app_assoc. }
  split.
  { unfold ask_server.
    rewrite (bind_ok _ _ _ _ _ (CreateInstance_serving env tl extra)).
    fold server. unfold call_method.
    now rewrite (bind_ok _ _ _ _ _
                   (Hserver "Subscribe" def_Subscribe ltac:(discriminate) eq_refl)). }
  split.
  { unfold ask_server.
    rewrite (bind_ok _ _ _ _ _ (CreateInstance_serving env tl extra)).
    fold server. unfold call_method.
    now rewrite (bind_ok _ _ _ _ _
                   (Hserver "Unsubscribe" def_Unsubscribe ltac:(discriminate) eq_refl)). }
  split.
  { unfold ask_server.
    rewrite (bind_ok _ _ _ _ _ (CreateInstance_serving env tl extra)).
    fold server. unfold call_method, bind, getattr.
    rewrite server_attr; [ | reflexivity | now apply lookup_singleton_ne ].
    reflexivity. }
  split; [ apply Hmissing; [ discriminate | reflexivity ] | ].
  split; apply Hmissing; try discriminate; reflexivity.
Qed.

Lemma client_session_computes_pi_witness :
  let st := run_calls [(def_GetNumberCruncher, [VRef 3])]
              (loaded_state import_env sample_typelib) in
  run import_env = (Ok tt, loaded_state import_env sample_typelib) /\
  fst (ask_cruncher "ComputePi" [] st) = Ok (VFloat pi_literal) /\
  fst (ask_server "ComputePi" [] st) = Raise (AttributeError "ComputePi") /\
  fst (ask_cruncher "Subscribe" [VNone] st)
  = Raise (AttributeError "Subscribe").
Proof.
  split; [ exact import_run | ].
  destruct (client_session_computes_pi import_env _
              [(def_GetNumberCruncher, [VRef 3])] import_run)
    as (H1 & _ & _ & _ & H5 & H6 & _).
  split; [ exact H1 | ]. split; [ exact H5 | exact H6 ].
Defined.

(** X8.  The guard compares release numbers as numbers.  A final
    release a.b.c of comtypes is turned away exactly when (a, b, c)
    comes before (1, 4, 9): 1.4.10 and 1.10.0 pass, 1.4.8 and 0.9.9 do
    not. *)
Theorem guard_compares_numbers a b c :
  ltb (final [a; b; c]) parse_1_4_9 = true
  <-> a < 1 \/ (a = 1 /\ (b < 4 \/ (b = 4 /\ c < 9))).
Proof. exact (final_release_older a b c). Qed.

